(** * Scratch3Knn: the KNN classifier extension of Scratch 3 (src/index.js)

    A shallow embedding of the extension object, of the handlers of its
    blocks and of the callbacks it leaves with the browser (image loads,
    the prediction promise, the 800 ms interval), followed by the
    properties of the classification pipeline.

    Conventions.
    - The object's fields keep their JavaScript names.
    - A handler is a computation in the monad [M]: it reads and updates the
      extension, may raise (a JavaScript [TypeError]) and emits the effects
      a user can see ([alert], the runtime's SAY event).  Console output is
      not modelled.
    - JavaScript is single threaded: a handler runs to its end, and what it
      leaves behind ([img.onload], an awaited promise) is a task in
      [pending] that the event loop fires later, in any order.
    - The runtime is a Scratch VM: [runtime.ioDevices] exists.  The motion
      loop [_loop] is never started and [_lastUpdate] is left out with it. *)

From stdpp Require Import base option list gmap strings pretty.

Open Scope string_scope.
Open Scope list_scope.
Open Scope Z_scope.

(** ** JavaScript values held by the extension *)

Inductive JsValue :=
| JUndefined
| JString (s : string)
| JNumber (n : Z).

#[global] Instance JsValue_eq_dec : EqDecision JsValue.
Proof. solve_decision. Defined.

(** [a === b] on the values above. *)
Definition strict_eq (a b : JsValue) : bool := bool_decide (a = b).

(** ToBoolean: [undefined], the empty string and [0] are falsy. *)
Definition truthy (v : JsValue) : bool :=
  match v with
  | JUndefined => false
  | JString s => negb (bool_decide (s = EmptyString))
  | JNumber n => negb (n =? 0)
  end.

(** [a || b]. *)
Definition js_or (a b : JsValue) : JsValue := if truthy a then a else b.

(** ToString, as used by [+] with a string operand. *)
Definition to_string (v : JsValue) : string :=
  match v with
  | JUndefined => "undefined"
  | JString s => s
  | JNumber n => pretty n
  end.

(** [arr[i]]: [undefined] out of range, also for a negative index. *)
Definition array_get (arr : list JsValue) (i : Z) : JsValue :=
  if i <? 0 then JUndefined else default JUndefined (arr !! Z.to_nat i).

(** [arr[i] = v] for [0 <= i]: an index past the end extends the array,
    the slots in between read [undefined]. *)
Definition array_set (arr : list JsValue) (i : nat) (v : JsValue) : list JsValue :=
  if decide (i < length arr)%nat then <[i:=v]> arr
  else arr ++ replicate (i - length arr) JUndefined ++ [v].

(** [arr.indexOf(v)]: the first index holding a value [=== v], or [-1]. *)
Fixpoint indexOf_from (arr : list JsValue) (v : JsValue) (i : Z) : Z :=
  match arr with
  | [] => -1
  | x :: arr' => if strict_eq x v then i else indexOf_from arr' v (i + 1)
  end.

Definition indexOf (arr : list JsValue) (v : JsValue) : Z := indexOf_from arr v 0.

(** ** Enumerations *)

Inductive VideoState := OFF | ON | ON_FLIPPED.

#[global] Instance VideoState_eq_dec : EqDecision VideoState.
Proof. solve_decision. Defined.

(** The six training blocks [trainA] .. [trainF]. *)
Inductive TrainBlock := TrainA | TrainB | TrainC | TrainD | TrainE | TrainF.

(** The class index each block passes to [addExample] and the entry of
    [trainTypes] it renames. *)
Definition classIndexOf (b : TrainBlock) : nat :=
  match b with
  | TrainA => 0 | TrainB => 1 | TrainC => 2
  | TrainD => 3 | TrainE => 4 | TrainF => 5
  end%nat.

(** ** The runtime the extension talks to *)

Record MotionState := {
  motionFrameNumber : Z;
  motionAmount : Z;
  motionDirection : Z
}.

(** The stage target: the globally stored video settings live on it. *)
Record Stage := {
  videoState : VideoState;
  videoTransparency : Z
}.

(** [runtime.ioDevices.video]. *)
Record VideoDevice := {
  videoEnabled : bool;
  mirror : bool;
  previewGhost : Z
}.

(** What a handler lets the user see. *)
Inductive Effect :=
| Alert (msg : string)
| Say (text : string).

Definition msg_camera_off : string := "请先打开摄像头".
Definition msg_no_samples : string := "该类别无训练数据".
Definition msg_unknown_class : string := "未找到对应类别".
Definition txt_samples : string := "样本数：".
Definition newline : string := String (Ascii.ascii_of_nat 10) EmptyString.

(** How a handler ends: it returns, or raises. *)
Inductive Completion (A : Type) :=
| Normal (a : A)
| Throw (e : string).
Arguments Normal {A} a.
Arguments Throw {A} e.

(** ** The extension object *)

(** What [classifier.predictClass] resolves to; the confidence table is
    opaque. *)
Record PredictResult (Confidences : Type) := {
  classIndex : Z;
  confidences : Confidences
}.
Arguments classIndex {Confidences} _.
Arguments confidences {Confidences} _.

(** The two models the extension is given, over opaque video frames and
    embeddings. *)
Class Models (Frame Embedding Confidences : Type) := {
  (** [mobilenet.infer(tf.fromPixels(img), 'conv_preds')] of the loaded model *)
  infer : Frame -> Embedding;
  (** [classifier.predictClass(xlogits)] on the examples held when it is
      called; [None] when the promise rejects *)
  predictClass : gmap Z (list Embedding) -> Embedding -> option (PredictResult Confidences)
}.

Section Scratch3Knn.

Context {Frame Embedding Confidences : Type}.
Context `{!Models Frame Embedding Confidences}.

(** A callback the browser still owes the extension. *)
Inductive Task :=
| TrainLoad (b : TrainBlock) (STRING : string) (img : Frame)
    (* [img.onload] set by a training block *)
| SampleLoad (img : Frame)
    (* [img.onload] set by [gotResult] *)
| SamplePredict (res : PredictResult Confidences).
    (* the continuation of [await this.classifier.predictClass(xlogits)] *)

Record Runtime := {
  stage : option Stage;                 (* runtime.getTargetForStage() *)
  targets : list (option MotionState);  (* per target, getCustomState(STATE_KEY) *)
  video : VideoDevice                   (* runtime.ioDevices.video *)
}.

Record Scratch3Knn := {
  runtime : Runtime;
  classifier : gmap Z (list Embedding);
  mobilenet : bool;                     (* Boolean(this.mobilenet) *)
  trainTypes : list JsValue;
  trainResult : JsValue;
  trainConfidences : option Confidences;
  pending : list Task
}.

Definition set_runtime (f : Runtime -> Runtime) (s : Scratch3Knn) : Scratch3Knn :=
  {| runtime := f (runtime s); classifier := classifier s; mobilenet := mobilenet s;
     trainTypes := trainTypes s; trainResult := trainResult s;
     trainConfidences := trainConfidences s; pending := pending s |}.

Definition set_classifier (f : gmap Z (list Embedding) -> gmap Z (list Embedding))
    (s : Scratch3Knn) : Scratch3Knn :=
  {| runtime := runtime s; classifier := f (classifier s); mobilenet := mobilenet s;
     trainTypes := trainTypes s; trainResult := trainResult s;
     trainConfidences := trainConfidences s; pending := pending s |}.

Definition set_mobilenet (b : bool) (s : Scratch3Knn) : Scratch3Knn :=
  {| runtime := runtime s; classifier := classifier s; mobilenet := b;
     trainTypes := trainTypes s; trainResult := trainResult s;
     trainConfidences := trainConfidences s; pending := pending s |}.

Definition set_trainTypes (f : list JsValue -> list JsValue) (s : Scratch3Knn) : Scratch3Knn :=
  {| runtime := runtime s; classifier := classifier s; mobilenet := mobilenet s;
     trainTypes := f (trainTypes s); trainResult := trainResult s;
     trainConfidences := trainConfidences s; pending := pending s |}.

Definition set_trainResult (v : JsValue) (s : Scratch3Knn) : Scratch3Knn :=
  {| runtime := runtime s; classifier := classifier s; mobilenet := mobilenet s;
     trainTypes := trainTypes s; trainResult := v;
     trainConfidences := trainConfidences s; pending := pending s |}.

Definition set_trainConfidences (c : option Confidences) (s : Scratch3Knn) : Scratch3Knn :=
  {| runtime := runtime s; classifier := classifier s; mobilenet := mobilenet s;
     trainTypes := trainTypes s; trainResult := trainResult s;
     trainConfidences := c; pending := pending s |}.

Definition set_pending (f : list Task -> list Task) (s : Scratch3Knn) : Scratch3Knn :=
  {| runtime := runtime s; classifier := classifier s; mobilenet := mobilenet s;
     trainTypes := trainTypes s; trainResult := trainResult s;
     trainConfidences := trainConfidences s; pending := f (pending s) |}.

(** ** The monad of handlers *)

Definition M (A : Type) : Type :=
  Scratch3Knn -> Completion A * Scratch3Knn * list Effect.

Definition ret {A} (a : A) : M A := fun s => (Normal a, s, []).

Definition bind {A B} (m : M A) (k : A -> M B) : M B := fun s =>
  match m s with
  | (Normal a, s1, es1) => let '(c, s2, es2) := k a s1 in (c, s2, es1 ++ es2)
  | (Throw e, s1, es1) => (Throw e, s1, es1)
  end.

Definition gets {A} (f : Scratch3Knn -> A) : M A := fun s => (Normal (f s), s, []).
Definition modify (f : Scratch3Knn -> Scratch3Knn) : M unit := fun s => (Normal tt, f s, []).
Definition emit (e : Effect) : M unit := fun s => (Normal tt, s, [e]).
Definition throw {A} (e : string) : M A := fun s => (Throw e, s, []).

(** The state a computation ends in and what it showed on the way. *)
Definition state_of {A} (r : Completion A * Scratch3Knn * list Effect) : Scratch3Knn := r.1.2.
Definition effects_of {A} (r : Completion A * Scratch3Knn * list Effect) : list Effect := r.2.
Definition completion_of {A} (r : Completion A * Scratch3Knn * list Effect) : Completion A := r.1.1.

#[local] Instance M_ret : MRet M := @ret.
#[local] Instance M_bind : MBind M := fun A B k m => bind m k.

(** ** The video settings stored on the stage *)

(** [get globalVideoState]: the stage's, and [VideoState.ON] without a stage. *)
Definition globalVideoState (s : Scratch3Knn) : VideoState :=
  match stage (runtime s) with
  | Some st => videoState st
  | None => ON
  end.

(** [set globalVideoState]: stored only when there is a stage. *)
Definition set_globalVideoState (state : VideoState) (s : Scratch3Knn) : Scratch3Knn :=
  set_runtime (fun r =>
    {| stage := (fun st => {| videoState := state;
                              videoTransparency := videoTransparency st |}) <$> stage r;
       targets := targets r; video := video r |}) s.

Definition globalVideoTransparency (s : Scratch3Knn) : Z :=
  match stage (runtime s) with
  | Some st => videoTransparency st
  | None => 50
  end.

Definition set_globalVideoTransparency (transparency : Z) (s : Scratch3Knn) : Scratch3Knn :=
  set_runtime (fun r =>
    {| stage := (fun st => {| videoState := videoState st;
                              videoTransparency := transparency |}) <$> stage r;
       targets := targets r; video := video r |}) s.

Definition set_video (f : VideoDevice -> VideoDevice) (s : Scratch3Knn) : Scratch3Knn :=
  set_runtime (fun r => {| stage := stage r; targets := targets r; video := f (video r) |}) s.

Definition disableVideo (v : VideoDevice) : VideoDevice :=
  {| videoEnabled := false; mirror := mirror v; previewGhost := previewGhost v |}.

Definition enableVideo (v : VideoDevice) : VideoDevice :=
  {| videoEnabled := true; mirror := mirror v; previewGhost := previewGhost v |}.

Definition set_mirror (b : bool) (v : VideoDevice) : VideoDevice :=
  {| videoEnabled := videoEnabled v; mirror := b; previewGhost := previewGhost v |}.

Definition setPreviewGhost (g : Z) (v : VideoDevice) : VideoDevice :=
  {| videoEnabled := videoEnabled v; mirror := mirror v; previewGhost := g |}.

(** [videoToggle(args)], [state] being [args.VIDEO_STATE]. *)
Definition videoToggle (state : VideoState) : M unit :=
  modify (set_globalVideoState state);;
  if bool_decide (state = OFF) then modify (set_video disableVideo)
  else
    modify (set_video enableVideo);;
    modify (set_video (set_mirror (bool_decide (state = ON)))).

(** [setVideoTransparency(args)], [transparency] being the number
    [Cast.toNumber(args.TRANSPARENCY)]. *)
Definition setVideoTransparency (transparency : Z) : M unit :=
  modify (set_globalVideoTransparency transparency);;
  modify (set_video (setPreviewGhost transparency)).

(** [reset()], bound to PROJECT_RUN_START: zeroes the motion amount and
    direction of every target that has a motion state. *)
Definition reset_target (t : option MotionState) : option MotionState :=
  (fun st => {| motionFrameNumber := motionFrameNumber st;
                motionAmount := 0; motionDirection := 0 |}) <$> t.

Definition reset : M unit :=
  modify (set_runtime (fun r =>
    {| stage := stage r; targets := reset_target <$> targets r; video := video r |})).

(** ** The example store of the classifier

    [knnClassifier.create()] comes from the KNN classifier package, which
    is not part of the repository.  The extension calls three of its
    operations; they are modelled on a finite map from class index to the
    examples of the class.  A class is a key of the map exactly while it
    holds examples, so that [Object.keys] of the counts tells whether
    anything was taught. *)

(** Modelled from the spec: [addExample] of the classifier package, which
    appends the embedding to the examples of the class. *)
Definition addExample (logits : Embedding) (k : Z)
    (st : gmap Z (list Embedding)) : gmap Z (list Embedding) :=
  <[k := default [] (st !! k) ++ [logits]]> st.

(** Modelled from the spec: [clearClass] of the classifier package, which
    empties the class; doing it twice is doing it once. *)
Definition knn_clearClass (k : Z) (st : gmap Z (list Embedding)) : gmap Z (list Embedding) :=
  delete k st.

(** Modelled from the spec: [getClassExampleCount] of the classifier
    package, the number of examples of each class that has some. *)
Definition getClassExampleCount (s : Scratch3Knn) : gmap Z nat :=
  length <$> classifier s.

(** [counts[index]] as a JavaScript value. *)
Definition count_at (counts : gmap Z nat) (index : Z) : JsValue :=
  match counts !! index with
  | Some n => JNumber (Z.of_nat n)
  | None => JUndefined
  end.

(** [clearClass(classIndex)]. *)
Definition clearClass (classIndex : Z) : M unit :=
  modify (set_classifier (knn_clearClass classIndex)).

(** One line of the text [updateExampleCounts] says:
    [this.trainTypes[i] + '样本数：' + (counts[i] || 0)]. *)
Definition count_line (s : Scratch3Knn) (i : Z) : string :=
  to_string (array_get (trainTypes s) i) +:+ txt_samples
  +:+ to_string (js_or (count_at (getClassExampleCount s) i) (JNumber 0)).

(** The text [updateExampleCounts] says, lines joined by ['\n']. *)
Definition counts_text (s : Scratch3Knn) : string :=
  count_line s 0 +:+ newline +:+ count_line s 1 +:+ newline
  +:+ count_line s 2 +:+ newline +:+ count_line s 3 +:+ newline
  +:+ count_line s 4 +:+ newline +:+ count_line s 5.

(** [updateExampleCounts(args, util)]: the SAY event of the runtime. *)
Definition updateExampleCounts : M unit :=
  s ← gets id;
  emit (Say (counts_text s)).

(** [isloaded()]. *)
Definition isloaded (s : Scratch3Knn) : bool := mobilenet s.

Definition schedule (t : Task) : M unit := modify (set_pending (fun l => l ++ [t])).

(** ** Training blocks *)

(** The body shared by [trainA] .. [trainF]; [frame] is what
    [video.getFrame] returns at the call ([None] for [null]). *)
Definition train (b : TrainBlock) (STRING : string) (frame : option Frame) : M unit :=
  vs ← gets globalVideoState;
  if bool_decide (vs = OFF) then emit (Alert msg_camera_off)
  else
    match frame with
    | None => throw "TypeError: getFrame(...) is null"
    | Some img => schedule (TrainLoad b STRING img)
    end.

Definition trainA := train TrainA.
Definition trainB := train TrainB.
Definition trainC := train TrainC.
Definition trainD := train TrainD.
Definition trainE := train TrainE.
Definition trainF := train TrainF.

(** [img.onload] of a training block. *)
Definition train_onload (b : TrainBlock) (STRING : string) (img : Frame) : M unit :=
  loaded ← gets mobilenet;
  if (loaded : bool) then
    modify (set_classifier (addExample (infer img) (Z.of_nat (classIndexOf b))));;
    modify (set_trainTypes (fun tt => array_set tt (classIndexOf b) (JString STRING)));;
    updateExampleCounts
  else throw "TypeError: this.mobilenet is undefined".

(** ** Readers and the reset block *)

(** [Samples(args)], [STRING] being [args.STRING]. *)
Definition Samples (STRING : string) (s : Scratch3Knn) : JsValue :=
  let counts := getClassExampleCount s in
  let index := indexOf (trainTypes s) (JString STRING) in
  js_or (count_at counts index) (JNumber 0).

(** [resetTrain(args, util)]. *)
Definition resetTrain (STRING : string) : M unit :=
  counts ← gets getClassExampleCount;
  index ← gets (fun s => indexOf (trainTypes s) (JString STRING));
  if negb (truthy (count_at counts index)) then emit (Alert msg_no_samples)
  else if index <? 0 then emit (Alert msg_unknown_class)
  else
    clearClass index;;
    updateExampleCounts.

(** [getResult()]. *)
Definition getResult (s : Scratch3Knn) : JsValue := trainResult s.

(** [whenGetResult(args)]. *)
Definition whenGetResult (STRING : string) (s : Scratch3Knn) : bool :=
  if strict_eq (trainResult s) JUndefined then false
  else strict_eq (JString STRING) (trainResult s).

(** ** The sampling cycle *)

(** [gotResult()] up to the point where it leaves [img.onload] behind;
    [frame] is what [video.getFrame] returns.  The promise is resolved
    at once when nothing was taught or when there is no frame. *)
Definition gotResult (frame : option Frame) : M unit :=
  counts ← gets getClassExampleCount;
  if bool_decide (size counts = 0%nat) then ret tt
  else
    match frame with
    | Some img => schedule (SampleLoad img)
    | None => ret tt
    end.

(** [img.onload] of [gotResult], up to its [await]. *)
Definition gotResult_onload (img : Frame) : M unit :=
  loaded ← gets mobilenet;
  if (loaded : bool) then
    st ← gets classifier;
    match predictClass st (infer img) with
    | Some res => schedule (SamplePredict res)
    | None => throw "predictClass rejected"
    end
  else throw "TypeError: this.mobilenet is undefined".

(** [img.onload] of [gotResult], after its [await]: the result is published. *)
Definition gotResult_publish (res : PredictResult Confidences) : M unit :=
  modify (fun s => set_trainResult (js_or (array_get (trainTypes s) (classIndex res)) (JNumber 0)) s);;
  modify (set_trainConfidences (Some (confidences res))).

(** The callback given to [setInterval(..., 800)]. *)
Definition tick (frame : option Frame) : M unit :=
  vs ← gets globalVideoState;
  if bool_decide (vs = ON) then gotResult frame
  else ret tt.

(** ** The event loop *)

Definition run_task (t : Task) : M unit :=
  match t with
  | TrainLoad b STRING img => train_onload b STRING img
  | SampleLoad img => gotResult_onload img
  | SamplePredict res => gotResult_publish res
  end.

(** The browser fires the [i]-th outstanding callback. *)
Definition fire (i : nat) : M unit :=
  t ← gets (fun s => pending s !! i);
  match t with
  | Some t => modify (set_pending (delete i));; run_task t
  | None => ret tt
  end.

(** [new Scratch3Knn(runtime)]: [knnInit] creates an empty classifier
    (MobileNet arrives later), the reset listener is registered, the video
    device is configured from the stored settings and the interval is set. *)
Definition fresh (rt : Runtime) : Scratch3Knn :=
  {| runtime := rt; classifier := ∅; mobilenet := false;
     trainTypes := [JString "A"; JString "B"; JString "C";
                    JString "D"; JString "E"; JString "F"];
     trainResult := JUndefined; trainConfidences := None; pending := [] |}.

Definition configure : M unit :=
  t ← gets globalVideoTransparency;
  setVideoTransparency t;;
  vs ← gets globalVideoState;
  videoToggle vs.

Definition constructor (rt : Runtime) : Scratch3Knn :=
  state_of (configure (fresh rt)).

(** What can happen to a running extension. *)
Inductive Event :=
| Tick (frame : option Frame)            (* the interval fires *)
| Fire (i : nat)                         (* an outstanding callback fires *)
| MobilenetLoaded                        (* [mobilenetModule.load()] resolves *)
| ProjectRunStart                        (* PROJECT_RUN_START *)
| CallVideoToggle (state : VideoState)
| CallSetVideoTransparency (transparency : Z)
| CallTrain (b : TrainBlock) (STRING : string) (frame : option Frame)
| CallResetTrain (STRING : string).

Definition handle (e : Event) : M unit :=
  match e with
  | Tick frame => tick frame
  | Fire i => fire i
  | MobilenetLoaded => modify (set_mobilenet true)
  | ProjectRunStart => reset
  | CallVideoToggle state => videoToggle state
  | CallSetVideoTransparency t => setVideoTransparency t
  | CallTrain b STRING frame => train b STRING frame
  | CallResetTrain STRING => resetTrain STRING
  end.

Definition step (s : Scratch3Knn) (e : Event) : Scratch3Knn := state_of (handle e s).

Definition exec (s : Scratch3Knn) (tr : list Event) : Scratch3Knn := foldl step s tr.

(** The sampling cycles in flight: started, not yet published. *)
Definition is_sampling (t : Task) : bool :=
  match t with
  | TrainLoad _ _ _ => false
  | SampleLoad _ | SamplePredict _ => true
  end.

Definition in_flight (s : Scratch3Knn) : nat :=
  length (List.filter is_sampling (pending s)).

(** ** Vocabulary of the properties *)

(** The examples class [k] holds. *)
Definition exemplars (s : Scratch3Knn) (k : Z) : list Embedding :=
  default [] (classifier s !! k).

(** Everything of the extension but the runtime it was given. *)
Definition knn_state (s : Scratch3Knn) :=
  (classifier s, mobilenet s, trainTypes s, trainResult s, trainConfidences s, pending s).

(** [label] is the display label of slot [i] and of no slot before it. *)
Definition first_match (labels : list JsValue) (label : JsValue) (i : nat) : Prop :=
  labels !! i = Some label ∧ ∀ j : nat, (j < i)%nat → labels !! j ≠ Some label.

(** Only the classes of the six training blocks are keys of the store,
    and a class that is a key holds at least one example. *)
Definition known_classes (s : Scratch3Knn) : Prop :=
  ∀ (k : Z) (l : list Embedding), classifier s !! k = Some l → 0 ≤ k < 6 ∧ l ≠ [].

Definition is_alert (e : Effect) : bool :=
  match e with
  | Alert _ => true
  | Say _ => false
  end.

Definition is_normal {A} (c : Completion A) : bool :=
  match c with
  | Normal _ => true
  | Throw _ => false
  end.

(** A call went through: it neither alerted the user nor raised. *)
Definition succeeded {A} (r : Completion A * Scratch3Knn * list Effect) : bool :=
  is_normal (completion_of r) && negb (existsb is_alert (effects_of r)).

(** In state [s], event [e] completes a successful training of class [k]:
    the image of a training block for [k] loads and its callback runs to
    the end. *)
Definition trains (k : Z) (s : Scratch3Knn) (e : Event) : bool :=
  match e with
  | Fire i =>
      match pending s !! i with
      | Some (TrainLoad b _ _) =>
          bool_decide (Z.of_nat (classIndexOf b) = k) && succeeded (handle e s)
      | _ => false
      end
  | _ => false
  end.

(** In state [s], event [e] is a reset block that resolves to class [k]
    and goes through. *)
Definition resets (k : Z) (s : Scratch3Knn) (e : Event) : bool :=
  match e with
  | CallResetTrain STRING =>
      bool_decide (indexOf (trainTypes s) (JString STRING) = k) && succeeded (handle e s)
  | _ => false
  end.

(** The number of successful trainings of class [k] since its last reset
    along the trace [tr] run from [s], [acc] being the number so far. *)
Fixpoint successful_trains (k : Z) (s : Scratch3Knn) (tr : list Event) (acc : nat) : nat :=
  match tr with
  | [] => acc
  | e :: tr' =>
      successful_trains k (step s e) tr'
        (if resets k s e then 0%nat else if trains k s e then S acc else acc)
  end.

End Scratch3Knn.

Arguments Task : clear implicits.
Arguments Scratch3Knn : clear implicits.
Arguments Event : clear implicits.
Arguments M : clear implicits.

(** ** The confidence reporter, the menus and the motion state *)

(** The confidence table of a prediction, read as JavaScript reads it:
    [table[index]] is a number or [undefined], and a number is truthy
    unless it is [0] or [NaN].  The numbers are floating point and stay
    opaque. *)
Class ConfidenceTable (Confidences Number : Type) := {
  confidence_at : Confidences -> Z -> option Number;
  number_truthy : Number -> bool
}.

(** What [getConfidence] reports: the literal [0] of the code, or a number
    of the table. *)
Inductive Reported (Number : Type) :=
| ReportedZero
| ReportedNumber (c : Number).
Arguments ReportedZero {Number}.
Arguments ReportedNumber {Number} c.

(** An entry of the info arrays given to [_buildMenu] ([value] may be
    missing) and an item of the menu it builds. *)
Record MenuInfo := {
  info_name : string;
  info_value : JsValue
}.

Record MenuItem := {
  menu_text : string;
  menu_value : JsValue
}.

(** [_buildMenu(info)]: [obj.value = entry.value || String(index + 1)]. *)
Definition _buildMenu (info : list MenuInfo) : list MenuItem :=
  imap (fun (index : nat) (entry : MenuInfo) =>
          {| menu_text := info_name entry;
             menu_value := js_or (info_value entry) (JString (pretty (index + 1)%nat)) |})
       info.

(** The strings of the [VideoState] enumeration. *)
Definition VideoState_string (v : VideoState) : string :=
  match v with
  | OFF => "off"
  | ON => "on"
  | ON_FLIPPED => "on-flipped"
  end.

(** [get VIDEO_STATE_INFO]. *)
Definition VIDEO_STATE_INFO : list MenuInfo :=
  [ {| info_name := "off"; info_value := JString (VideoState_string OFF) |};
    {| info_name := "on"; info_value := JString (VideoState_string ON) |};
    {| info_name := "on flipped"; info_value := JString (VideoState_string ON_FLIPPED) |} ].

(** [static get DEFAULT_MOTION_STATE]. *)
Definition DEFAULT_MOTION_STATE : MotionState :=
  {| motionFrameNumber := 0; motionAmount := 0; motionDirection := 0 |}.

(** [_getMotionState(target)], on the custom state the target keeps under
    [STATE_KEY]: the state returned and the custom state left behind.
    [Clone.simple] copies the default. *)
Definition _getMotionState (target : option MotionState) : MotionState * option MotionState :=
  match target with
  | Some motionState => (motionState, Some motionState)
  | None => (DEFAULT_MOTION_STATE, Some DEFAULT_MOTION_STATE)
  end.

Section Reporters.

Context {Frame Embedding Confidences Number : Type}.
Context `{!Models Frame Embedding Confidences}.
Context `{!ConfidenceTable Confidences Number}.

(** [getConfidence(args)], [STRING] being [args.STRING]. *)
Definition getConfidence (STRING : string)
    (s : Scratch3Knn Frame Embedding Confidences) : Reported Number :=
  let index := indexOf (trainTypes s) (JString STRING) in
  if index =? -1 then ReportedZero
  else
    match trainConfidences s with
    | None => ReportedZero
    | Some table =>
        match confidence_at table index with
        | Some c => if number_truthy c then ReportedNumber c else ReportedZero
        | None => ReportedZero
        end
    end.

(** The event fires the continuation that publishes a prediction. *)
Definition publishes (s : Scratch3Knn Frame Embedding Confidences) (e : Event Frame) : bool :=
  match e with
  | Fire i =>
      match pending s !! i with
      | Some (SamplePredict _) => true
      | _ => false
      end
  | _ => false
  end.

Definition is_MobilenetLoaded (e : Event Frame) : bool :=
  match e with
  | MobilenetLoaded => true
  | _ => false
  end.

(** The event belongs to the video blocks or to the project start, the
    only ones that write to the runtime. *)
Definition writes_runtime (e : Event Frame) : bool :=
  match e with
  | ProjectRunStart | CallVideoToggle _ | CallSetVideoTransparency _ => true
  | _ => false
  end.

Definition is_label (v : JsValue) : Prop :=
  match v with
  | JString _ => True
  | _ => False
  end.

(** Six slots, each with a string for a label. *)
Definition six_labels (s : Scratch3Knn Frame Embedding Confidences) : Prop :=
  length (trainTypes s) = 6%nat ∧ Forall is_label (trainTypes s).

(** A published result is a non-empty string or the number 0, and comes
    with its confidence table. *)
Definition result_shape (s : Scratch3Knn Frame Embedding Confidences) : Prop :=
  match trainResult s with
  | JUndefined => trainConfidences s = None
  | JString str => str ≠ EmptyString ∧ is_Some (trainConfidences s)
  | JNumber n => n = 0 ∧ is_Some (trainConfidences s)
  end.

End Reporters.

(** ** A small session, for the concrete runs

    Frames and embeddings are numbers, MobileNet is the identity and the
    classifier predicts the class whose index is the query (it rejects when
    nothing was taught). *)
Module Demo.

Definition Frame := nat.
Definition Embedding := nat.
Definition Confidences := list (Z * nat).

#[global] Instance models : Models Frame Embedding Confidences := {|
  infer := fun img => img;
  predictClass := fun st x =>
    if bool_decide (size st = 0%nat) then None
    else Some {| classIndex := Z.of_nat x; confidences := [(Z.of_nat x, 1%nat)] |}
|}.

Definition a_stage (vs : VideoState) : Stage :=
  {| videoState := vs; videoTransparency := 50 |}.

Definition a_runtime (vs : VideoState) : Runtime :=
  {| stage := Some (a_stage vs);
     targets := [Some {| motionFrameNumber := 3; motionAmount := 40; motionDirection := 90 |};
                 None];
     video := {| videoEnabled := false; mirror := false; previewGhost := 0 |} |}.

Definition run (s : Scratch3Knn Frame Embedding Confidences)
    (tr : list (Event Frame)) : Scratch3Knn Frame Embedding Confidences :=
  exec s tr.

(** A new extension, camera on. *)
Definition started : Scratch3Knn Frame Embedding Confidences :=
  constructor (a_runtime ON).

(** MobileNet has loaded and frame 0 was taught as "cat" with [trainA],
    frame 1 as "dog" with [trainB]. *)
Definition lesson : list (Event Frame) :=
  [MobilenetLoaded;
   CallTrain TrainA "cat" (Some 0%nat); Fire 0;
   CallTrain TrainB "dog" (Some 1%nat); Fire 0].

Definition taught : Scratch3Knn Frame Embedding Confidences :=
  run started lesson.

(** One sampling cycle, on frame 0, has started. *)
Definition sampling : Scratch3Knn Frame Embedding Confidences :=
  run taught [Tick (Some 0%nat)].

(** A cycle on frame 0 was published and another, on frame 1, has started. *)
Definition published : Scratch3Knn Frame Embedding Confidences :=
  run taught [Tick (Some 0%nat); Fire 0; Fire 0; Tick (Some 1%nat)].

(** The image of a cycle on frame 0 has loaded, its prediction is awaited. *)
Definition predicting : Scratch3Knn Frame Embedding Confidences :=
  run taught [Tick (Some 0%nat); Fire 0].

(** As [predicting], but frame 0 was taught under the empty label. *)
Definition predicting_unnamed : Scratch3Knn Frame Embedding Confidences :=
  run started [MobilenetLoaded;
               CallTrain TrainA EmptyString (Some 0%nat); Fire 0;
               Tick (Some 0%nat); Fire 0].

(** The camera was then turned off. *)
Definition camera_off : Scratch3Knn Frame Embedding Confidences :=
  run taught [CallVideoToggle OFF].

(** Confidences of the demo classifier are natural numbers in a list of
    pairs. *)
#[global] Instance table : ConfidenceTable Confidences nat := {|
  confidence_at := fun t index => snd <$> List.find (fun p => fst p =? index) t;
  number_truthy := fun c => negb (Nat.eqb c 0)
|}.

(** A runtime without a stage target. *)
Definition no_stage : Runtime :=
  {| stage := None; targets := [];
     video := {| videoEnabled := false; mirror := false; previewGhost := 0 |} |}.

(** A training block ran with the camera on; its image has not loaded. *)
Definition training : Scratch3Knn Frame Embedding Confidences :=
  run taught [CallTrain TrainC "bird" (Some 2%nat)].

(** The same before MobileNet has arrived. *)
Definition training_early : Scratch3Knn Frame Embedding Confidences :=
  run started [CallTrain TrainA "cat" (Some 0%nat)].

(** A cycle has started and both classes were then reset: the demo
    classifier will reject the prediction. *)
Definition emptied : Scratch3Knn Frame Embedding Confidences :=
  run taught [Tick (Some 0%nat); CallResetTrain "cat"; CallResetTrain "dog"].

(** [trainB] ran with the label of slot 0. *)
Definition shadowing : Scratch3Knn Frame Embedding Confidences :=
  run taught [CallTrain TrainB "cat" (Some 3%nat)].

(** "cat" is the published result and [trainA] ran with a new label. *)
Definition renaming : Scratch3Knn Frame Embedding Confidences :=
  run published [CallTrain TrainA "bird" (Some 2%nat)].

(** A new extension on a runtime without a stage. *)
Definition unstaged : Scratch3Knn Frame Embedding Confidences :=
  constructor no_stage.

(** Menu entries, the second with a value of its own. *)
Definition some_info : list MenuInfo :=
  [ {| info_name := "first"; info_value := JUndefined |};
    {| info_name := "second"; info_value := JString "two" |};
    {| info_name := "third"; info_value := JUndefined |} ].

End Demo.

(** * Properties *)

Section Properties.

Context {Frame Embedding Confidences : Type}.
Context `{!Models Frame Embedding Confidences}.

Abbreviation State := (Scratch3Knn Frame Embedding Confidences).

(** Runs a handler symbolically. *)
Ltac run_m :=
  cbv [handle step fire tick gotResult run_task
       train trainA trainB trainC trainD trainE trainF train_onload resetTrain
       clearClass updateExampleCounts schedule videoToggle setVideoTransparency
       reset gotResult_onload gotResult_publish configure constructor
       mbind M_bind bind mret M_ret ret gets modify emit throw
       state_of effects_of completion_of].

(** ** The handlers, one equation each *)

Lemma tick_unfold (s : State) (frame : option Frame) :
  tick frame s =
  if bool_decide (globalVideoState s = ON) then
    if bool_decide (size (getClassExampleCount s) = 0%nat) then (Normal tt, s, [])
    else match frame with
         | Some img => (Normal tt, set_pending (fun l => l ++ [SampleLoad img]) s, [])
         | None => (Normal tt, s, [])
         end
  else (Normal tt, s, []).
Proof.
  run_m. repeat case_bool_decide; try reflexivity. destruct frame; reflexivity.
Qed.

Lemma gotResult_unfold (s : State) (frame : option Frame) :
  gotResult frame s =
  if bool_decide (size (getClassExampleCount s) = 0%nat) then (Normal tt, s, [])
  else match frame with
       | Some img => (Normal tt, set_pending (fun l => l ++ [SampleLoad img]) s, [])
       | None => (Normal tt, s, [])
       end.
Proof.
  run_m. case_bool_decide; try reflexivity. destruct frame; reflexivity.
Qed.

Lemma resetTrain_unfold (s : State) (STRING : string) :
  resetTrain STRING s =
  let index := indexOf (trainTypes s) (JString STRING) in
  if negb (truthy (count_at (getClassExampleCount s) index)) then
    (Normal tt, s, [Alert msg_no_samples])
  else if index <? 0 then (Normal tt, s, [Alert msg_unknown_class])
  else let s' := set_classifier (knn_clearClass index) s in
       (Normal tt, s', [Say (counts_text s')]).
Proof.
  run_m. cbn zeta.
  destruct (negb _); [reflexivity|].
  destruct (_ <? 0); reflexivity.
Qed.

Lemma train_unfold (b : TrainBlock) (STRING : string) (frame : option Frame) (s : State) :
  train b STRING frame s =
  if bool_decide (globalVideoState s = OFF) then (Normal tt, s, [Alert msg_camera_off])
  else match frame with
       | Some img => (Normal tt, set_pending (fun l => l ++ [TrainLoad b STRING img]) s, [])
       | None => (Throw "TypeError: getFrame(...) is null", s, [])
       end.
Proof.
  run_m. case_bool_decide; try reflexivity. destruct frame; reflexivity.
Qed.

Lemma train_onload_unfold (b : TrainBlock) (STRING : string) (img : Frame) (s : State) :
  train_onload b STRING img s =
  if mobilenet s then
    let s' := set_trainTypes (fun tt => array_set tt (classIndexOf b) (JString STRING))
                (set_classifier (addExample (infer img) (Z.of_nat (classIndexOf b))) s) in
    (Normal tt, s', [Say (counts_text s')])
  else (Throw "TypeError: this.mobilenet is undefined", s, []).
Proof.
  run_m. destruct (mobilenet s); reflexivity.
Qed.

Lemma fire_unfold (i : nat) (s : State) :
  fire i s =
  match pending s !! i with
  | Some t =>
      let '(c, s', es) := run_task t (set_pending (delete i) s) in
      (c, s', es)
  | None => (Normal tt, s, [])
  end.
Proof.
  cbv [fire mbind M_bind bind gets modify ret].
  destruct (pending s !! i); [|reflexivity].
  cbn. destruct (run_task _ _) as [[c s'] es]. reflexivity.
Qed.

(** ** Handlers that leave the extension proper alone *)

Lemma videoToggle_knn_state (state : VideoState) (s : State) :
  knn_state (state_of (videoToggle state s)) = knn_state s.
Proof. run_m. case_bool_decide; reflexivity. Qed.

Lemma setVideoTransparency_knn_state (t : Z) (s : State) :
  knn_state (state_of (setVideoTransparency t s)) = knn_state s.
Proof. reflexivity. Qed.

Lemma reset_knn_state (s : State) :
  knn_state (state_of (reset s)) = knn_state s.
Proof. reflexivity. Qed.

Lemma constructor_knn_state (rt : Runtime) :
  knn_state (constructor rt : State) = knn_state (fresh rt : State).
Proof. run_m. cbn. case_bool_decide; reflexivity. Qed.

Lemma size_counts_0 (s : State) :
  size (getClassExampleCount s) = 0%nat ↔ classifier s = ∅.
Proof.
  unfold getClassExampleCount. rewrite map_size_fmap. apply map_size_empty_iff.
Qed.

(** ** Reading the result *)

(** C8. [whenGetResult] (the spec's [matches]) answers false as long as
    no result was published ([trainResult] is [undefined]); once there is
    one it answers true exactly when its argument is the very string that
    [getResult] (the spec's [currentPrediction]) reports. *)
Theorem whenGetResult_spec (s : State) (STRING : string) :
  (getResult s = JUndefined → whenGetResult STRING s = false) ∧
  (getResult s ≠ JUndefined →
     (whenGetResult STRING s = true ↔ getResult s = JString STRING)).
Proof.
  unfold whenGetResult, getResult, strict_eq. split.
  - intros ->. reflexivity.
  - intros Hdef. rewrite (bool_decide_eq_false_2 _ Hdef).
    rewrite bool_decide_eq_true. split; congruence.
Qed.

(** ** Publishing a prediction *)

Lemma gotResult_publish_unfold (res : PredictResult Confidences) (s : State) :
  gotResult_publish res s =
  (Normal tt,
   set_trainConfidences (Some (confidences res))
     (set_trainResult (js_or (array_get (trainTypes s) (classIndex res)) (JNumber 0)) s),
   []).
Proof. reflexivity. Qed.

Lemma array_get_out_of_range (arr : list JsValue) (i : Z) :
  i < 0 ∨ Z.of_nat (length arr) ≤ i → array_get arr i = JUndefined.
Proof.
  intros H. unfold array_get. destruct (Z.ltb_spec i 0) as [|Hi]; [reflexivity|].
  rewrite lookup_ge_None_2; [reflexivity|]. lia.
Qed.

(** C10. When a sampling cycle completes (the continuation of its
    [await] fires), the published prediction is the label of the predicted
    slot if that label is a non-empty string; if the label is falsy, for
    instance the empty string, or the predicted index has no entry in
    [trainTypes], the number 0 is published, and that number is what
    [getResult] then returns. *)
Theorem published_prediction (s : State) (i : nat) (res : PredictResult Confidences)
    (Hi : pending s !! i = Some (SamplePredict res)) :
  let label := array_get (trainTypes s) (classIndex res) in
  let s' := step s (Fire i) in
  trainResult s' = js_or label (JNumber 0) ∧
  getResult s' = trainResult s' ∧
  (∀ str, label = JString str → str ≠ EmptyString → getResult s' = JString str) ∧
  (truthy label = false → getResult s' = JNumber 0) ∧
  (label = JString EmptyString → getResult s' = JNumber 0) ∧
  (classIndex res < 0 ∨ Z.of_nat (length (trainTypes s)) ≤ classIndex res →
     getResult s' = JNumber 0) ∧
  (∀ str, getResult s' = JString str → label = JString str ∧ str ≠ EmptyString).
Proof.
  intros label s'.
  assert (Hres : trainResult s' = js_or label (JNumber 0)).
  { subst s'. unfold step, handle. rewrite fire_unfold, Hi.
    reflexivity. }
  unfold getResult. rewrite Hres. unfold js_or.
  split_and!; [reflexivity|reflexivity|..].
  - intros str -> Hne. cbn. rewrite bool_decide_eq_false_2; done.
  - intros ->. reflexivity.
  - intros ->. reflexivity.
  - intros Hout. subst label. rewrite array_get_out_of_range; done.
  - intros str Hstr. destruct (truthy label) eqn:Ht; [|discriminate].
    subst label. rewrite Hstr in Ht |- *. split; [reflexivity|].
    cbn in Ht. apply negb_true_iff, bool_decide_eq_false in Ht. done.
Qed.

(** ** Labels and counts *)

Lemma indexOf_from_spec (arr : list JsValue) (v : JsValue) (i : Z) :
  (indexOf_from arr v i = -1 ∧ v ∉ arr) ∨
  (∃ n : nat, indexOf_from arr v i = i + Z.of_nat n ∧ first_match arr v n).
Proof.
  revert i. induction arr as [|x arr IH]; intros i; cbn.
  - left. split; [reflexivity|]. apply not_elem_of_nil.
  - unfold strict_eq. case_bool_decide as Hx.
    + right. exists 0%nat. split; [lia|]. split; [cbn; congruence|]. lia.
    + destruct (IH (i + 1)) as [(Hr & Hn) | (n & Hr & Hl & Hfirst)].
      * left. split; [exact Hr|]. rewrite elem_of_cons. intros [->|]; done.
      * right. exists (S n). split; [lia|]. split; [exact Hl|].
        intros [|j] Hj; cbn; [congruence|]. apply Hfirst. lia.
Qed.

(** [indexOf] answers [-1] for a value the array does not hold, and the
    first index holding it otherwise. *)
Lemma indexOf_spec (arr : list JsValue) (v : JsValue) :
  (indexOf arr v = -1 ∧ v ∉ arr) ∨
  (∃ n : nat, indexOf arr v = Z.of_nat n ∧ first_match arr v n).
Proof.
  unfold indexOf.
  destruct (indexOf_from_spec arr v 0) as [(Hr & Hn) | (n & Hr & Hf)];
    [left; done | right; exists n; split; [lia | done]].
Qed.

Lemma indexOf_not_elem (arr : list JsValue) (v : JsValue) :
  v ∉ arr → indexOf arr v = -1.
Proof.
  intros Hn. destruct (indexOf_spec arr v) as [[Hr _] | (n & _ & Hl & _)]; [exact Hr|].
  exfalso. apply Hn. eapply list_elem_of_lookup_2. exact Hl.
Qed.

Lemma first_match_unique (arr : list JsValue) (v : JsValue) (i j : nat) :
  first_match arr v i → first_match arr v j → i = j.
Proof.
  intros [Hi Hfi] [Hj Hfj].
  destruct (Nat.lt_trichotomy i j) as [Hlt | [Heq | Hgt]]; [|exact Heq|].
  - exfalso. exact (Hfj i Hlt Hi).
  - exfalso. exact (Hfi j Hgt Hj).
Qed.

Lemma indexOf_first_match (arr : list JsValue) (v : JsValue) (i : nat) :
  first_match arr v i → indexOf arr v = Z.of_nat i.
Proof.
  intros Hf. destruct (indexOf_spec arr v) as [[_ Hn] | (n & Hr & Hfn)].
  - exfalso. apply Hn. eapply list_elem_of_lookup_2. exact (proj1 Hf).
  - rewrite Hr. f_equal. eapply first_match_unique; eassumption.
Qed.

Lemma count_at_exemplars (s : State) (k : Z) :
  js_or (count_at (getClassExampleCount s) k) (JNumber 0)
  = JNumber (Z.of_nat (length (exemplars s k))).
Proof.
  unfold count_at, getClassExampleCount, exemplars. rewrite lookup_fmap.
  destruct (classifier s !! k) as [[|x l]|]; reflexivity.
Qed.

Lemma count_at_truthy (s : State) (k : Z) :
  truthy (count_at (getClassExampleCount s) k) = true ↔ exemplars s k ≠ [].
Proof.
  unfold count_at, getClassExampleCount, exemplars. rewrite lookup_fmap.
  destruct (classifier s !! k) as [[|x l]|]; cbn; split; done.
Qed.

Lemma exemplars_clearClass (s : State) (index k : Z) :
  exemplars (set_classifier (knn_clearClass index) s) k
  = if decide (index = k) then [] else exemplars s k.
Proof.
  unfold exemplars, knn_clearClass. cbn. rewrite lookup_delete.
  case_decide; reflexivity.
Qed.

(** ** The reset block *)

(** C4. [resetTrain] wants its label to resolve to a slot ([indexOf] is
    not negative) that holds at least one example.  Otherwise it alerts the
    user and changes nothing at all, so that no slot's count moves; if both
    hold it clears that slot and no other, and says the new counts. *)
Theorem resetTrain_spec (s : State) (STRING : string) :
  let index := indexOf (trainTypes s) (JString STRING) in
  (index < 0 ∨ exemplars s index = [] →
     ∃ msg, resetTrain STRING s = (Normal tt, s, [Alert msg])) ∧
  (0 ≤ index ∧ exemplars s index ≠ [] →
     let s' := set_classifier (knn_clearClass index) s in
     resetTrain STRING s = (Normal tt, s', [Say (counts_text s')]) ∧
     exemplars s' index = [] ∧
     (∀ k, k ≠ index → exemplars s' k = exemplars s k) ∧
     trainTypes s' = trainTypes s ∧ getResult s' = getResult s ∧
     pending s' = pending s).
Proof.
  intros index. rewrite resetTrain_unfold. fold index. cbn zeta.
  destruct (truthy (count_at (getClassExampleCount s) index)) eqn:Ht; cbn [negb].
  - apply count_at_truthy in Ht. split.
    + intros [Hneg | Hempty]; [|done].
      apply Z.ltb_lt in Hneg. rewrite Hneg. eauto.
    + intros [Hpos _]. apply Z.ltb_ge in Hpos. rewrite Hpos.
      split_and!; try reflexivity.
      * rewrite exemplars_clearClass. case_decide; done.
      * intros k Hk. rewrite exemplars_clearClass. case_decide; done.
  - split; [eauto|].
    intros [_ Hne]. apply count_at_truthy in Hne. congruence.
Qed.

(** ** What the store can hold *)

Lemma classifier_step (s : State) (e : Event Frame) :
  classifier (step s e) =
  match e with
  | Fire i =>
      match pending s !! i with
      | Some (TrainLoad b _ img) =>
          if mobilenet s then addExample (infer img) (Z.of_nat (classIndexOf b)) (classifier s)
          else classifier s
      | _ => classifier s
      end
  | CallResetTrain STRING =>
      let index := indexOf (trainTypes s) (JString STRING) in
      if truthy (count_at (getClassExampleCount s) index) && negb (index <? 0)
      then delete index (classifier s) else classifier s
  | _ => classifier s
  end.
Proof.
  destruct e as [frame|i| | |state|t|b STRING frame|STRING];
    unfold step; cbn [handle].
  - rewrite tick_unfold. repeat case_bool_decide; try reflexivity.
    destruct frame; reflexivity.
  - rewrite fire_unfold. destruct (pending s !! i) as [[b STRING img|img|res]|];
      cbn [run_task]; [| | reflexivity | reflexivity].
    + rewrite train_onload_unfold. cbn. destruct (mobilenet s); reflexivity.
    + unfold gotResult_onload. run_m. cbn. destruct (mobilenet s); [|reflexivity].
      destruct (predictClass _ _); reflexivity.
  - reflexivity.
  - reflexivity.
  - run_m. case_bool_decide; reflexivity.
  - reflexivity.
  - rewrite train_unfold. case_bool_decide; [reflexivity|]. destruct frame; reflexivity.
  - rewrite resetTrain_unfold. cbn zeta.
    destruct (truthy _); cbn; [|reflexivity]. destruct (_ <? 0); reflexivity.
Qed.

Lemma known_classes_step (s : State) (e : Event Frame) :
  known_classes s → known_classes (step s e).
Proof.
  intros Hk k l. rewrite classifier_step.
  destruct e as [frame|i| | |state|t|b STRING frame|STRING]; try apply Hk.
  - destruct (pending s !! i) as [[b STRING img|img|res]|]; try apply Hk.
    destruct (mobilenet s); [|apply Hk].
    unfold addExample. rewrite lookup_insert. case_decide as Hb; [|apply Hk].
    intros [= <-]. subst k. split; [destruct b; cbn; lia|].
    intros Hnil. apply app_eq_nil in Hnil. destruct Hnil as [_ [=]].
  - cbn zeta. destruct (_ && _); [|apply Hk].
    rewrite lookup_delete. case_decide; [discriminate | apply Hk].
Qed.

Lemma known_classes_exec (s : State) (tr : list (Event Frame)) :
  known_classes s → known_classes (exec s tr).
Proof.
  revert s. induction tr as [|e tr IH]; intros s Hk; [exact Hk|].
  cbn. apply IH, known_classes_step, Hk.
Qed.

Lemma constructor_classifier (rt : Runtime) :
  classifier (constructor rt : State) = ∅.
Proof.
  pose proof (constructor_knn_state rt) as Hk.
  unfold knn_state in Hk. cbn in Hk. congruence.
Qed.

Lemma known_classes_constructor (rt : Runtime) :
  known_classes (constructor rt : State).
Proof.
  intros k l. rewrite constructor_classifier, lookup_empty. discriminate.
Qed.

(** The states a running extension can be in keep the invariant. *)
Lemma known_classes_reachable (rt : Runtime) (tr : list (Event Frame)) :
  known_classes (exec (constructor rt) tr : State).
Proof. apply known_classes_exec, known_classes_constructor. Qed.

(** In such a state a store without examples is the empty store. *)
Lemma no_exemplars_empty (s : State) :
  known_classes s → (∀ k : Z, exemplars s k = []) → classifier s = ∅.
Proof.
  intros Hk Hnone. apply map_eq. intros k. rewrite lookup_empty.
  destruct (classifier s !! k) as [l|] eqn:E; [|reflexivity].
  destruct (Hk k l E) as [_ Hne]. specialize (Hnone k).
  unfold exemplars in Hnone. rewrite E in Hnone. cbn in Hnone. contradiction.
Qed.

(** ** Cycles that stop short *)

(** C6. A sampling cycle started when nothing was taught, or when the
    video device has no frame, ends at once: no image load is left
    behind, so neither MobileNet nor the classifier runs, and the
    published result and confidences stay what they were.  In a running
    extension "nothing was taught" is: no class holds an example.  In a new
    extension the result is the initial "no result", and any number of
    ticks leaves it so. *)
Theorem sampling_short_circuits (s : State) (frame : option Frame) :
  (classifier s = ∅ ∨ frame = None →
     gotResult frame s = (Normal tt, s, []) ∧
     handle (Tick frame) s = (Normal tt, s, []) ∧
     pending (step s (Tick frame)) = pending s ∧
     getResult (step s (Tick frame)) = getResult s ∧
     trainConfidences (step s (Tick frame)) = trainConfidences s) ∧
  (∀ (rt : Runtime) (tr : list (Event Frame)),
     s = exec (constructor rt) tr → (∀ k : Z, exemplars s k = []) →
     gotResult frame s = (Normal tt, s, []) ∧
     handle (Tick frame) s = (Normal tt, s, [])) ∧
  (∀ (rt : Runtime) (frames : list (option Frame)),
     exec (constructor rt) (Tick <$> frames) = constructor rt ∧
     getResult (constructor rt : State) = JUndefined ∧
     trainConfidences (constructor rt : State) = None).
Proof.
  assert (Hshort : ∀ (s0 : State) frame0, classifier s0 = ∅ ∨ frame0 = None →
            gotResult frame0 s0 = (Normal tt, s0, []) ∧
            handle (Tick frame0) s0 = (Normal tt, s0, [])).
  { intros s0 frame0 H. cbn [handle].
    rewrite tick_unfold, gotResult_unfold.
    destruct H as [H | ->].
    - apply size_counts_0 in H. rewrite (bool_decide_eq_true_2 _ H).
      split; [reflexivity|]. case_bool_decide; reflexivity.
    - split; repeat case_bool_decide; reflexivity. }
  refine (conj _ (conj _ _)).
  - intros H. destruct (Hshort s frame H) as [Hg Ht].
    unfold step. rewrite Ht. auto.
  - intros rt tr -> Hnone. apply Hshort. left.
    apply no_exemplars_empty; [apply known_classes_reachable | exact Hnone].
  - intros rt frames.
    pose proof (constructor_knn_state rt) as Hk.
    unfold knn_state in Hk. cbn in Hk.
    pose proof (constructor_classifier rt) as Hc.
    split_and!; [|unfold getResult; congruence|congruence].
    induction frames as [|fr frames IH]; [reflexivity|].
    cbn. unfold step at 2.
    destruct (Hshort (constructor rt) fr (or_introl Hc)) as [_ ->]. exact IH.
Qed.

(** C9. In any state the extension can reach, a label that no slot
    carries makes [indexOf] answer [-1], the count read at [-1] is
    [undefined], and [resetTrain] leaves through its first alert ("no
    training data") without clearing anything.  The second alert, guarded by
    [index < 0], is never shown, whatever the label. *)
Theorem resetTrain_unknown_label (rt : Runtime) (tr : list (Event Frame))
    (STRING : string) :
  let s := exec (constructor rt) tr in
  (JString STRING ∉ trainTypes s →
     indexOf (trainTypes s) (JString STRING) = -1 ∧
     count_at (getClassExampleCount s) (-1) = JUndefined ∧
     resetTrain STRING s = (Normal tt, s, [Alert msg_no_samples])) ∧
  (∀ label : string, Alert msg_unknown_class ∉ effects_of (resetTrain label s)).
Proof.
  intros s.
  assert (Hk : known_classes s)
    by apply known_classes_exec, known_classes_constructor.
  assert (Hneg : ∀ k, k < 0 → count_at (getClassExampleCount s) k = JUndefined).
  { intros k Hlt. unfold count_at, getClassExampleCount. rewrite lookup_fmap.
    destruct (classifier s !! k) as [l|] eqn:E; [|reflexivity].
    destruct (Hk k l E) as [Hrange _]. lia. }
  split.
  - intros Hn. apply indexOf_not_elem in Hn.
    split_and!; [exact Hn | apply Hneg; lia |].
    rewrite resetTrain_unfold. cbn zeta. rewrite Hn, Hneg by lia. reflexivity.
  - intros label. rewrite resetTrain_unfold. cbn zeta.
    destruct (truthy _) eqn:Ht; cbn [negb].
    + destruct (Z.ltb_spec (indexOf (trainTypes s) (JString label)) 0) as [Hlt|Hge].
      * rewrite Hneg in Ht by exact Hlt. discriminate.
      * cbn. rewrite list_elem_of_singleton. discriminate.
    + cbn. rewrite list_elem_of_singleton. intros [=].
Qed.

(** ** Counting examples *)

Lemma exemplars_addExample (s : State) (x : Embedding) (k k' : Z) :
  default [] (addExample x k (classifier s) !! k')
  = if decide (k = k') then exemplars s k ++ [x] else exemplars s k'.
Proof.
  unfold addExample, exemplars. rewrite lookup_insert.
  case_decide; reflexivity.
Qed.

(** One event moves the count of class [k] as the bookkeeping of
    [successful_trains] says. *)
Lemma count_step (k : Z) (s : State) (e : Event Frame) :
  length (exemplars (step s e) k)
  = if resets k s e then 0%nat
    else if trains k s e then S (length (exemplars s k))
    else length (exemplars s k).
Proof.
  unfold exemplars at 1. rewrite classifier_step.
  destruct e as [frame|i| | |state|t|b STRING frame|STRING];
    cbn [trains resets]; try reflexivity.
  - cbn [handle]. rewrite fire_unfold.
    destruct (pending s !! i) as [[b STRING img|img|res]|]; try reflexivity.
    cbn [run_task]. rewrite train_onload_unfold. cbn.
    destruct (mobilenet s); cbn.
    + rewrite exemplars_addExample, andb_true_r.
      case_decide; [rewrite bool_decide_eq_true_2 by done
                   |rewrite bool_decide_eq_false_2 by done]; [|reflexivity].
      subst k. rewrite length_app. cbn. lia.
    + rewrite andb_false_r. reflexivity.
  - cbn [handle]. rewrite resetTrain_unfold. cbn zeta.
    destruct (truthy _); cbn; [|rewrite andb_false_r; reflexivity].
    destruct (_ <? 0); cbn; [rewrite andb_false_r; reflexivity|].
    rewrite andb_true_r, lookup_delete.
    case_decide; [rewrite bool_decide_eq_true_2 by done
                 |rewrite bool_decide_eq_false_2 by done]; reflexivity.
Qed.

Lemma count_exec (k : Z) (tr : list (Event Frame)) (s : State) (acc : nat) :
  length (exemplars s k) = acc →
  length (exemplars (exec s tr) k) = successful_trains k s tr acc.
Proof.
  revert s acc. induction tr as [|e tr IH]; intros s acc Hacc; [exact Hacc|].
  cbn. apply IH. rewrite count_step, Hacc. reflexivity.
Qed.

Lemma Samples_exemplars (s : State) (STRING : string) :
  Samples STRING s
  = JNumber (Z.of_nat (length (exemplars s (indexOf (trainTypes s) (JString STRING))))).
Proof. unfold Samples. cbn zeta. apply count_at_exemplars. Qed.

(** C7. In any state the extension can reach, [Samples] resolves its
    label to the first slot that carries it and reports the number of
    examples of that slot, and 0 for a label no slot carries.  That number
    is the number of successful trainings of the slot since it was last
    reset, whatever happened in between; the same holds of every class. *)
Theorem Samples_spec (rt : Runtime) (tr : list (Event Frame)) (STRING : string) :
  let s := exec (constructor rt) tr in
  (JString STRING ∉ trainTypes s → Samples STRING s = JNumber 0) ∧
  (∀ i : nat, first_match (trainTypes s) (JString STRING) i →
     Samples STRING s = JNumber (Z.of_nat (length (exemplars s (Z.of_nat i)))) ∧
     length (exemplars s (Z.of_nat i))
     = successful_trains (Z.of_nat i) (constructor rt) tr 0) ∧
  (∀ k : Z, length (exemplars s k) = successful_trains k (constructor rt) tr 0).
Proof.
  intros s.
  assert (Hcount : ∀ k : Z,
            length (exemplars s k) = successful_trains k (constructor rt) tr 0).
  { intros k. apply count_exec.
    pose proof (constructor_knn_state rt) as Hk. unfold knn_state in Hk. cbn in Hk.
    assert (Hc : classifier (constructor rt : State) = ∅) by congruence.
    unfold exemplars. rewrite Hc, lookup_empty. reflexivity. }
  split_and!.
  - intros Hn. rewrite Samples_exemplars, (indexOf_not_elem _ _ Hn).
    assert (Hk : known_classes s)
      by apply known_classes_exec, known_classes_constructor.
    unfold exemplars. destruct (classifier s !! (-1)) as [l|] eqn:E; [|reflexivity].
    destruct (Hk _ l E) as [Hrange _]. lia.
  - intros i Hf. split; [|apply Hcount].
    rewrite Samples_exemplars, (indexOf_first_match _ _ _ Hf). reflexivity.
  - exact Hcount.
Qed.

(** ** The training blocks *)

Lemma array_get_set (arr : list JsValue) (i : nat) (v : JsValue) (j : Z) :
  array_get (array_set arr i v) j
  = if decide (j = Z.of_nat i) then v else array_get arr j.
Proof.
  unfold array_get, array_set.
  destruct (Z.ltb_spec j 0) as [Hneg|Hpos]; [case_decide; [lia|reflexivity]|].
  destruct (decide (i < length arr)%nat) as [Hi|Hi].
  - case_decide as Hj.
    + subst j. rewrite Nat2Z.id, list_lookup_insert_eq by done. reflexivity.
    + rewrite list_lookup_insert_ne by lia. reflexivity.
  - case_decide as Hj.
    + subst j. rewrite Nat2Z.id, lookup_app_r by lia.
      rewrite lookup_app_r by (rewrite length_replicate; lia).
      rewrite length_replicate. replace (i - length arr - (i - length arr))%nat with 0%nat by lia.
      reflexivity.
    + destruct (decide (Z.to_nat j < length arr)%nat) as [Hlt|Hge].
      * rewrite lookup_app_l by done. reflexivity.
      * rewrite (lookup_ge_None_2 arr) by lia. rewrite lookup_app_r by lia.
        destruct (decide (Z.to_nat j - length arr < i - length arr)%nat) as [Hm|Hm].
        -- rewrite lookup_app_l by (rewrite length_replicate; done).
           rewrite lookup_replicate_2 by done. reflexivity.
        -- rewrite lookup_app_r by (rewrite length_replicate; lia).
           rewrite length_replicate.
           rewrite lookup_ge_None_2 by (cbn; lia). reflexivity.
Qed.

Lemma fire_TrainLoad (s : State) (i : nat) (b : TrainBlock) (STRING : string) (img : Frame) :
  pending s !! i = Some (TrainLoad b STRING img) →
  mobilenet s = true →
  let s' := set_trainTypes (fun tt => array_set tt (classIndexOf b) (JString STRING))
              (set_classifier (addExample (infer img) (Z.of_nat (classIndexOf b)))
                 (set_pending (delete i) s)) in
  handle (Fire i) s = (Normal tt, s', [Say (counts_text s')]).
Proof.
  intros Hi Hm. cbn [handle]. rewrite fire_unfold, Hi. cbn [run_task].
  rewrite train_onload_unfold. cbn -[counts_text]. rewrite Hm. reflexivity.
Qed.

(** C5, as the code has it.  A training block wants the camera on.  With
    the video state off it alerts the user and changes nothing, so the slot
    keeps its examples and its label.  With the camera on, an enabled
    session is not enough for the example to be added: when the video
    device delivers a frame the block takes it and leaves its image load
    behind, and when that image has loaded with MobileNet loaded, the
    embedding of the frame is appended to the examples of the block's slot,
    the slot takes the given label, and nothing else moves. *)
Theorem train_spec (b : TrainBlock) (STRING : string) (s : State) :
  let k := Z.of_nat (classIndexOf b) in
  (globalVideoState s = OFF → ∀ frame : option Frame,
     train b STRING frame s = (Normal tt, s, [Alert msg_camera_off])) ∧
  (globalVideoState s ≠ OFF → ∀ img : Frame,
     train b STRING (Some img) s
     = (Normal tt, set_pending (fun l => l ++ [TrainLoad b STRING img]) s, [])) ∧
  (∀ (s1 : State) (i : nat) (img : Frame),
     pending s1 !! i = Some (TrainLoad b STRING img) → mobilenet s1 = true →
     let s2 := step s1 (Fire i) in
     exemplars s2 k = exemplars s1 k ++ [infer img] ∧
     array_get (trainTypes s2) k = JString STRING ∧
     (∀ k' : Z, k' ≠ k →
        exemplars s2 k' = exemplars s1 k' ∧
        array_get (trainTypes s2) k' = array_get (trainTypes s1) k') ∧
     getResult s2 = getResult s1 ∧
     effects_of (handle (Fire i) s1) = [Say (counts_text s2)]) ∧
  (globalVideoState s ≠ OFF → mobilenet s = true → ∀ img : Frame,
     let s2 := exec s [CallTrain b STRING (Some img); Fire (length (pending s))] in
     exemplars s2 k = exemplars s k ++ [infer img] ∧
     array_get (trainTypes s2) k = JString STRING).
Proof.
  intros k.
  assert (Hload : ∀ (s1 : State) (i : nat) (img : Frame),
     pending s1 !! i = Some (TrainLoad b STRING img) → mobilenet s1 = true →
     let s2 := step s1 (Fire i) in
     exemplars s2 k = exemplars s1 k ++ [infer img] ∧
     array_get (trainTypes s2) k = JString STRING ∧
     (∀ k' : Z, k' ≠ k →
        exemplars s2 k' = exemplars s1 k' ∧
        array_get (trainTypes s2) k' = array_get (trainTypes s1) k') ∧
     getResult s2 = getResult s1 ∧
     effects_of (handle (Fire i) s1) = [Say (counts_text s2)]).
  { intros s1 i img Hi Hm s2. subst s2. unfold step.
    rewrite (fire_TrainLoad _ _ _ _ _ Hi Hm). cbn -[counts_text array_set].
    unfold exemplars at 1. cbn -[array_set]. fold k.
    rewrite exemplars_addExample, array_get_set.
    rewrite !decide_True by done.
    split_and!; try reflexivity.
    intros k' Hk'. unfold exemplars at 1. cbn -[array_set].
    rewrite exemplars_addExample, array_get_set.
    rewrite !decide_False by done. done. }
  split_and!.
  - intros Hoff frame. rewrite train_unfold.
    rewrite bool_decide_eq_true_2 by done. reflexivity.
  - intros Hon img. rewrite train_unfold.
    rewrite bool_decide_eq_false_2 by done. reflexivity.
  - exact Hload.
  - intros Hon Hm img s2. subst s2. cbn [exec foldl].
    set (s1 := set_pending (fun l => l ++ [TrainLoad b STRING img]) s).
    assert (Hs1 : step s (CallTrain b STRING (Some img)) = s1).
    { unfold step. cbn [handle]. rewrite train_unfold.
      rewrite bool_decide_eq_false_2 by done. reflexivity. }
    rewrite Hs1.
    assert (Hi : pending s1 !! length (pending s) = Some (TrainLoad b STRING img)).
    { subst s1. cbn. rewrite lookup_app_r by lia. rewrite Nat.sub_diag. reflexivity. }
    destruct (Hload s1 _ img Hi Hm) as (He & Hl & _).
    split; assumption.
Qed.


(** ** The interval and the cycles it starts *)

Lemma tick_starts (s : State) (img : Frame) :
  globalVideoState s = ON → classifier s ≠ ∅ →
  handle (Tick (Some img)) s
  = (Normal tt, set_pending (fun l => l ++ [SampleLoad img]) s, []).
Proof.
  intros Hon Ht. cbn [handle]. rewrite tick_unfold.
  rewrite bool_decide_eq_true_2 by done.
  rewrite bool_decide_eq_false_2 by (rewrite size_counts_0; done).
  reflexivity.
Qed.

Lemma in_flight_started (s : State) (img : Frame) :
  in_flight (set_pending (fun l => l ++ [SampleLoad img]) s) = S (in_flight s).
Proof.
  unfold in_flight. cbn. rewrite List.filter_app, length_app. cbn. lia.
Qed.

Lemma fire_SampleLoad (s : State) (i : nat) (img : Frame)
    (res : PredictResult Confidences) :
  pending s !! i = Some (SampleLoad img) →
  mobilenet s = true →
  predictClass (classifier s) (infer img) = Some res →
  handle (Fire i) s
  = (Normal tt, set_pending (fun l => delete i l ++ [SamplePredict res]) s, []).
Proof.
  intros Hi Hm Hp. cbn [handle]. rewrite fire_unfold, Hi. cbn [run_task].
  unfold gotResult_onload. run_m. cbn -[predictClass infer]. rewrite Hm.
  cbn -[predictClass infer]. rewrite Hp. reflexivity.
Qed.

Lemma fire_SamplePredict (s : State) (i : nat) (res : PredictResult Confidences) :
  pending s !! i = Some (SamplePredict res) →
  handle (Fire i) s
  = (Normal tt,
     set_trainConfidences (Some (confidences res))
       (set_trainResult (js_or (array_get (trainTypes s) (classIndex res)) (JNumber 0))
          (set_pending (delete i) s)),
     []).
Proof.
  intros Hi. cbn [handle]. rewrite fire_unfold, Hi. reflexivity.
Qed.

Lemma delete_middle {A} (l r : list A) (x : A) :
  delete (length l) (l ++ x :: r) = l ++ r.
Proof. induction l as [|y l IH]; cbn; [reflexivity|]. f_equal. exact IH. Qed.

Lemma lookup_middle {A} (l r : list A) (x : A) :
  (l ++ x :: r) !! length l = Some x.
Proof. rewrite lookup_app_r by lia. rewrite Nat.sub_diag. reflexivity. Qed.

(** A cycle whose image load is outstanding, fired. *)
Lemma step_SampleLoad (s : State) (P R : list (Task Frame Confidences)) (img : Frame)
    (res : PredictResult Confidences) :
  pending s = P ++ SampleLoad img :: R →
  mobilenet s = true →
  predictClass (classifier s) (infer img) = Some res →
  step s (Fire (length P)) = set_pending (fun _ => P ++ R ++ [SamplePredict res]) s.
Proof.
  intros HP Hm Hp. unfold step.
  rewrite (fire_SampleLoad s (length P) img res); [|rewrite HP; apply lookup_middle|done..].
  cbn. unfold set_pending. rewrite HP, delete_middle, <- app_assoc. reflexivity.
Qed.

(** A cycle whose prediction is outstanding, fired. *)
Lemma step_SamplePredict (s : State) (P R : list (Task Frame Confidences))
    (res : PredictResult Confidences) :
  pending s = P ++ SamplePredict res :: R →
  step s (Fire (length P))
  = set_trainConfidences (Some (confidences res))
      (set_trainResult (js_or (array_get (trainTypes s) (classIndex res)) (JNumber 0))
         (set_pending (fun _ => P ++ R) s)).
Proof.
  intros HP. unfold step.
  rewrite (fire_SamplePredict s (length P) res); [|rewrite HP; apply lookup_middle].
  cbn. unfold set_pending, set_trainResult, set_trainConfidences. cbn.
  rewrite HP, delete_middle. reflexivity.
Qed.

(** C1, as the code has it.  The interval does not look at the cycles in
    flight.  With the video state on, something taught and a frame at hand,
    a tick that arrives while the cycle of an earlier tick is unresolved is
    not dropped: it starts a cycle of its own, so two are in flight, and
    the extension differs from what it was before that tick exactly in its
    outstanding callbacks.  Once MobileNet is there and the classifier
    answers, both cycles run to the end and each publishes its result. *)
Theorem ticks_overlap (s : State) (img1 img2 : Frame)
    (Hon : globalVideoState s = ON) (Htaught : classifier s ≠ ∅) :
  let s1 := step s (Tick (Some img1)) in
  let s2 := step s1 (Tick (Some img2)) in
  let n := length (pending s) in
  pending s1 = pending s ++ [SampleLoad img1] ∧
  pending s2 = pending s ++ [SampleLoad img1; SampleLoad img2] ∧
  in_flight s1 = S (in_flight s) ∧
  in_flight s2 = S (S (in_flight s)) ∧
  s2 = set_pending (fun l => l ++ [SampleLoad img2]) s1 ∧
  s2 ≠ s1 ∧
  (∀ res1 res2 : PredictResult Confidences,
     mobilenet s = true →
     predictClass (classifier s) (infer img1) = Some res1 →
     predictClass (classifier s) (infer img2) = Some res2 →
     let publish res := js_or (array_get (trainTypes s) (classIndex res)) (JNumber 0) in
     getResult (exec s2 [Fire n; Fire n; Fire n]) = publish res1 ∧
     in_flight (exec s2 [Fire n; Fire n; Fire n]) = S (in_flight s) ∧
     getResult (exec s2 [Fire n; Fire n; Fire n; Fire n]) = publish res2 ∧
     pending (exec s2 [Fire n; Fire n; Fire n; Fire n]) = pending s).
Proof.
  intros s1 s2 n.
  assert (Hs1 : s1 = set_pending (fun l => l ++ [SampleLoad img1]) s).
  { subst s1. unfold step. rewrite tick_starts by done. reflexivity. }
  assert (Hs2 : s2 = set_pending (fun l => l ++ [SampleLoad img2]) s1).
  { subst s2. unfold step. rewrite tick_starts; [reflexivity| |]; rewrite Hs1; done. }
  assert (Hp2 : pending s2 = pending s ++ [SampleLoad img1; SampleLoad img2]).
  { rewrite Hs2, Hs1. cbn. rewrite <- app_assoc. reflexivity. }
  split_and!.
  - rewrite Hs1. reflexivity.
  - exact Hp2.
  - rewrite Hs1. apply in_flight_started.
  - rewrite Hs2, in_flight_started, Hs1, in_flight_started. reflexivity.
  - exact Hs2.
  - intros Heq. apply (f_equal (fun x => length (pending x))) in Heq.
    rewrite Hs2 in Heq. cbn in Heq. rewrite length_app in Heq. cbn in Heq. lia.
  - intros res1 res2 Hm Hr1 Hr2 publish.
    assert (Hk2 : classifier s2 = classifier s ∧ mobilenet s2 = mobilenet s ∧
                  trainTypes s2 = trainTypes s) by (rewrite Hs2, Hs1; done).
    destruct Hk2 as (Hc2 & Hm2 & Ht2).
    subst n. cbn [exec foldl].
    set (P := pending s) in *.
    rewrite (step_SampleLoad s2 P [SampleLoad img2] img1 res1);
      [|exact Hp2|congruence|congruence].
    set (s3 := set_pending _ s2).
    rewrite (step_SampleLoad s3 P [SamplePredict res1] img2 res2);
      [|reflexivity|cbn; congruence|cbn; congruence].
    set (s4 := set_pending _ s3).
    rewrite (step_SamplePredict s4 P [SamplePredict res2] res1); [|reflexivity].
    set (s5 := set_trainConfidences _ _).
    rewrite (step_SamplePredict s5 P [] res2); [|subst s5; cbn; reflexivity].
    unfold getResult, in_flight. cbn. rewrite Ht2, app_nil_r.
    split_and!; try reflexivity.
    subst P. rewrite List.filter_app, length_app. cbn. lia.
Qed.

(** C3, as the code has it.  A tick does nothing when the video state is
    off.  With the video state on, something taught and a frame at hand it
    starts a cycle, whether or not others are in flight.  The cycle then
    runs MobileNet and the classifier when its image has loaded, and when
    the prediction resolves it replaces the published result and
    confidences. *)
Theorem tick_spec (s : State) (frame : option Frame) :
  (globalVideoState s = OFF → handle (Tick frame) s = (Normal tt, s, [])) ∧
  (globalVideoState s = ON → classifier s ≠ ∅ → ∀ img : Frame, frame = Some img →
     handle (Tick frame) s
     = (Normal tt, set_pending (fun l => l ++ [SampleLoad img]) s, []) ∧
     in_flight (step s (Tick frame)) = S (in_flight s)) ∧
  (∀ (s1 : State) (i : nat) (img : Frame) (res : PredictResult Confidences),
     pending s1 !! i = Some (SampleLoad img) →
     mobilenet s1 = true →
     predictClass (classifier s1) (infer img) = Some res →
     handle (Fire i) s1
     = (Normal tt, set_pending (fun l => delete i l ++ [SamplePredict res]) s1, [])) ∧
  (∀ (s2 : State) (j : nat) (res : PredictResult Confidences),
     pending s2 !! j = Some (SamplePredict res) →
     let s3 := step s2 (Fire j) in
     getResult s3 = js_or (array_get (trainTypes s2) (classIndex res)) (JNumber 0) ∧
     trainConfidences s3 = Some (confidences res) ∧
     pending s3 = delete j (pending s2)).
Proof.
  split_and!.
  - intros Hoff. cbn [handle]. rewrite tick_unfold.
    rewrite bool_decide_eq_false_2 by congruence. reflexivity.
  - intros Hon Ht img ->. unfold step. rewrite tick_starts by done.
    split; [reflexivity|]. apply in_flight_started.
  - apply fire_SampleLoad.
  - intros s2 j res Hj s3. subst s3. unfold step.
    rewrite (fire_SamplePredict _ _ _ Hj). done.
Qed.

(** The interval tests for [VideoState.ON], the training blocks for
    [VideoState.OFF]: with the video on but flipped, training goes through
    while ticks do nothing. *)
Remark tick_on_flipped (s : State) (frame : option Frame) :
  globalVideoState s = ON_FLIPPED → handle (Tick frame) s = (Normal tt, s, []).
Proof.
  intros Hf. cbn [handle]. rewrite tick_unfold.
  rewrite bool_decide_eq_false_2 by congruence. reflexivity.
Qed.

(** ** Project start *)

(** C2, as the code has it.  What PROJECT_RUN_START runs is [reset], and
    [reset] is about motion only: it zeroes the motion amount and direction
    of every target that has a motion state.  The examples of every class,
    the labels, the published result and confidences and the cycles in
    flight are what they were before. *)
Theorem reset_spec (s : State) :
  let s' := step s ProjectRunStart in
  handle ProjectRunStart s = (Normal tt, s', []) ∧
  knn_state s' = knn_state s ∧
  (∀ k : Z, exemplars s' k = exemplars s k) ∧
  (∀ STRING : string, Samples STRING s' = Samples STRING s) ∧
  getResult s' = getResult s ∧
  trainConfidences s' = trainConfidences s ∧
  in_flight s' = in_flight s ∧
  stage (runtime s') = stage (runtime s) ∧
  video (runtime s') = video (runtime s) ∧
  targets (runtime s') = reset_target <$> targets (runtime s) ∧
  (∀ (i : nat) (m : MotionState), targets (runtime s') !! i = Some (Some m) →
     motionAmount m = 0 ∧ motionDirection m = 0).
Proof.
  intros s'. split_and!; try reflexivity.
  intros i m. subst s'. cbn. rewrite list_lookup_fmap.
  destruct (targets (runtime s) !! i) as [[m0|]|]; cbn; intros [=]. subst m. done.
Qed.

End Properties.

(** * Concrete runs *)

Section Runs.

Import Demo.

(** The result published by the demo session is "cat"; before any cycle
    completed nothing matches. *)
Lemma whenGetResult_spec_witness :
  (getResult taught = JUndefined ∧ whenGetResult "cat" taught = false) ∧
  (getResult published ≠ JUndefined ∧
   (whenGetResult "cat" published = true ↔ getResult published = JString "cat")).
Proof.
  split.
  - split; [reflexivity|].
    apply (proj1 (whenGetResult_spec taught "cat")). reflexivity.
  - assert (H : getResult published ≠ JUndefined) by (vm_compute; discriminate).
    split; [exact H|].
    apply (proj2 (whenGetResult_spec published "cat")). exact H.
Defined.

(** The prediction awaited in [predicting] is class 0, whose label is
    "cat"; in [predicting_unnamed] class 0 carries the empty label and the
    number 0 is published. *)
Lemma published_prediction_witness :
  (pending predicting !! 0%nat
   = Some (SamplePredict {| classIndex := 0; confidences := [(0, 1%nat)] |}) ∧
   getResult (step predicting (Fire 0)) = JString "cat") ∧
  (pending predicting_unnamed !! 0%nat
   = Some (SamplePredict {| classIndex := 0; confidences := [(0, 1%nat)] |}) ∧
   array_get (trainTypes predicting_unnamed) 0 = JString EmptyString ∧
   getResult (step predicting_unnamed (Fire 0)) = JNumber 0).
Proof.
  split.
  - assert (H : pending predicting !! 0%nat
              = Some (SamplePredict {| classIndex := 0; confidences := [(0, 1%nat)] |}))
      by reflexivity.
    split; [exact H|].
    destruct (published_prediction predicting 0 _ H) as (_ & _ & Hlabel & _).
    apply Hlabel; [reflexivity|discriminate].
  - assert (H : pending predicting_unnamed !! 0%nat
              = Some (SamplePredict {| classIndex := 0; confidences := [(0, 1%nat)] |}))
      by reflexivity.
    assert (Hl : array_get (trainTypes predicting_unnamed) 0 = JString EmptyString)
      by reflexivity.
    split_and!; [exact H|exact Hl|].
    destruct (published_prediction predicting_unnamed 0 _ H) as (_ & _ & _ & _ & He & _).
    apply He. exact Hl.
Defined.

(** Nothing taught: a tick with a frame changes nothing.  No frame: a tick
    changes nothing though two classes were taught. *)
Lemma sampling_short_circuits_witness :
  (classifier started = ∅ ∧
   handle (Tick (Some 0%nat)) started = (Normal tt, started, [])) ∧
  (handle (Tick None) taught = (Normal tt, taught, []) ∧
   getResult (step published (Tick None)) = JString "cat") ∧
  ((∀ k : Z, exemplars (run started [MobilenetLoaded]) k = []) ∧
   handle (Tick (Some 0%nat)) (run started [MobilenetLoaded])
   = (Normal tt, run started [MobilenetLoaded], [])).
Proof.
  refine (conj _ (conj _ _)).
  - assert (H : classifier started = ∅) by reflexivity.
    split; [exact H|].
    destruct (sampling_short_circuits started (Some 0%nat)) as [Hs _].
    apply Hs. left. exact H.
  - destruct (sampling_short_circuits taught None) as [Hs _].
    destruct (sampling_short_circuits published None) as [Hp _].
    split; [apply Hs; right; reflexivity|].
    destruct Hp as (_ & _ & _ & -> & _); [right; reflexivity|reflexivity].
  - assert (H : ∀ k : Z, exemplars (run started [MobilenetLoaded]) k = [])
      by (intros k; reflexivity).
    split; [exact H|].
    destruct (sampling_short_circuits (run started [MobilenetLoaded]) (Some 0%nat))
      as (_ & Hr & _).
    apply (Hr (a_runtime ON) [MobilenetLoaded] eq_refl H).
Defined.

(** "zebra" is the label of no slot: the reset alerts and
    keeps the state.  "cat" is slot 0 with one example: it is cleared, while
    "dog" keeps its own. *)
Lemma resetTrain_spec_witness :
  (indexOf (trainTypes taught) (JString "zebra") < 0 ∧
   ∃ msg, resetTrain "zebra" taught = (Normal tt, taught, [Alert msg])) ∧
  (0 ≤ indexOf (trainTypes taught) (JString "cat") ∧
   exemplars taught (indexOf (trainTypes taught) (JString "cat")) ≠ [] ∧
   exemplars (state_of (resetTrain "cat" taught)) 0 = [] ∧
   exemplars (state_of (resetTrain "cat" taught)) 1 = [1%nat]).
Proof.
  split.
  - assert (H : indexOf (trainTypes taught) (JString "zebra") < 0) by reflexivity.
    split; [exact H|].
    apply (proj1 (resetTrain_spec taught "zebra")). left. exact H.
  - assert (H0 : 0 ≤ indexOf (trainTypes taught) (JString "cat")) by (vm_compute; discriminate).
    assert (H1 : exemplars taught (indexOf (trainTypes taught) (JString "cat")) ≠ [])
      by (vm_compute; discriminate).
    split_and!; [exact H0|exact H1|..];
      destruct (proj2 (resetTrain_spec taught "cat") (conj H0 H1)) as (-> & _);
      reflexivity.
Defined.

(** After the demo session "zebra" is carried by no slot. *)
Lemma resetTrain_unknown_label_witness :
  (JString "zebra" ∉ trainTypes taught) ∧
  resetTrain "zebra" taught = (Normal tt, taught, [Alert msg_no_samples]).
Proof.
  unfold taught, run, started.
  pose proof (resetTrain_unknown_label (a_runtime ON) lesson "zebra") as [Hu _].
  assert (H : JString "zebra" ∉ trainTypes (exec (constructor (a_runtime ON)) lesson)).
  { apply (bool_decide_unpack _). vm_compute. exact I. }
  split; [exact H|].
  destruct (Hu H) as (_ & _ & Hr). exact Hr.
Defined.

(** After the demo session "dog" is the label of slot 1 and of no slot
    before it; one training of class 1 succeeded. *)
Lemma Samples_spec_witness :
  first_match (trainTypes taught) (JString "dog") 1 ∧
  Samples "dog" taught = JNumber 1 ∧
  (JString "zebra" ∉ trainTypes taught) ∧
  Samples "zebra" taught = JNumber 0.
Proof.
  unfold taught, run, started.
  pose proof (Samples_spec (a_runtime ON) lesson "dog") as (_ & Hm & _).
  pose proof (Samples_spec (a_runtime ON) lesson "zebra") as (Hz & _).
  assert (Hf : first_match (trainTypes (exec (constructor (a_runtime ON)) lesson))
                 (JString "dog") 1).
  { split; [vm_compute; reflexivity|].
    intros [|j] Hj; [vm_compute; discriminate|lia]. }
  assert (Hn : JString "zebra" ∉ trainTypes (exec (constructor (a_runtime ON)) lesson)).
  { apply (bool_decide_unpack _). vm_compute. exact I. }
  split_and!; [exact Hf| |exact Hn|exact (Hz Hn)].
  destruct (Hm 1%nat Hf) as [Hs _]. rewrite Hs. vm_compute. reflexivity.
Defined.

(** Camera off: [trainA] alerts and keeps the state.  Camera on: the frame
    is taken, and when its image has loaded slot 0 holds one more example
    and is called "bird". *)
Lemma train_spec_witness :
  (globalVideoState camera_off = OFF ∧
   trainA "bird" (Some 2%nat) camera_off = (Normal tt, camera_off, [Alert msg_camera_off])) ∧
  (globalVideoState taught ≠ OFF ∧ mobilenet taught = true ∧
   exemplars (run taught [CallTrain TrainA "bird" (Some 2%nat); Fire 0]) 0 = [0%nat; 2%nat] ∧
   array_get (trainTypes (run taught [CallTrain TrainA "bird" (Some 2%nat); Fire 0])) 0
   = JString "bird").
Proof.
  split.
  - assert (H : globalVideoState camera_off = OFF) by reflexivity.
    split; [exact H|].
    destruct (train_spec TrainA "bird" camera_off) as (Hoff & _).
    apply Hoff. exact H.
  - assert (H : globalVideoState taught ≠ OFF) by (vm_compute; discriminate).
    assert (Hm : mobilenet taught = true) by reflexivity.
    destruct (train_spec TrainA "bird" taught) as (_ & _ & _ & Hrun).
    destruct (Hrun H Hm 2%nat) as [He Hl].
    split_and!; [exact H|exact Hm|exact He|exact Hl].
Defined.

(** Two ticks in a row on the demo session. *)
Lemma ticks_overlap_witness :
  globalVideoState taught = ON ∧ classifier taught ≠ ∅ ∧
  in_flight (run taught [Tick (Some 0%nat); Tick (Some 1%nat)]) = 2%nat ∧
  getResult (run taught [Tick (Some 0%nat); Tick (Some 1%nat);
                         Fire 0; Fire 0; Fire 0; Fire 0]) = JString "dog".
Proof.
  assert (Hon : globalVideoState taught = ON) by reflexivity.
  assert (Ht : classifier taught ≠ ∅) by (vm_compute; discriminate).
  destruct (ticks_overlap taught 0%nat 1%nat Hon Ht) as (_ & _ & _ & H2 & _ & _ & Hrun).
  split_and!; [exact Hon|exact Ht|exact H2|].
  destruct (Hrun {| classIndex := 0; confidences := [(0, 1%nat)] |}
                 {| classIndex := 1; confidences := [(1, 1%nat)] |}
                 eq_refl eq_refl eq_refl) as (_ & _ & Hdog & _).
  exact Hdog.
Defined.

(** A tick with the camera off, a tick with it on, and the two steps of the
    cycle that tick starts. *)
Lemma tick_spec_witness :
  (globalVideoState camera_off = OFF ∧
   handle (Tick (Some 0%nat)) camera_off = (Normal tt, camera_off, [])) ∧
  (globalVideoState taught = ON ∧ classifier taught ≠ ∅ ∧
   in_flight (step taught (Tick (Some 0%nat))) = 1%nat) ∧
  (pending sampling !! 0%nat = Some (SampleLoad 0%nat) ∧
   mobilenet sampling = true ∧
   pending (step sampling (Fire 0)) =
     [SamplePredict {| classIndex := 0; confidences := [(0, 1%nat)] |}]) ∧
  getResult (step predicting (Fire 0)) = JString "cat".
Proof.
  refine (conj _ (conj _ (conj _ _))).
  - assert (H : globalVideoState camera_off = OFF) by reflexivity.
    split; [exact H|].
    apply (proj1 (tick_spec camera_off (Some 0%nat))). exact H.
  - assert (Hon : globalVideoState taught = ON) by reflexivity.
    assert (Ht : classifier taught ≠ ∅) by (vm_compute; discriminate).
    split_and!; [exact Hon|exact Ht|].
    destruct (tick_spec taught (Some 0%nat)) as (_ & Hstart & _).
    destruct (Hstart Hon Ht 0%nat eq_refl) as [_ Hf]. exact Hf.
  - assert (Hi : pending sampling !! 0%nat = Some (SampleLoad 0%nat)) by reflexivity.
    assert (Hm : mobilenet sampling = true) by reflexivity.
    split_and!; [exact Hi|exact Hm|].
    destruct (tick_spec sampling None) as (_ & _ & Hload & _).
    unfold step.
    rewrite (Hload sampling 0%nat 0%nat
               {| classIndex := 0; confidences := [(0, 1%nat)] |} Hi Hm eq_refl).
    reflexivity.
  - destruct (tick_spec predicting None) as (_ & _ & _ & Hpub).
    destruct (Hpub predicting 0%nat
                {| classIndex := 0; confidences := [(0, 1%nat)] |} eq_refl) as (-> & _).
    reflexivity.
Defined.

(** The first target of the demo runtime moved; after the project starts
    its motion amount and direction are 0. *)
Lemma reset_spec_witness :
  targets (runtime (step published ProjectRunStart)) !! 0%nat
  = Some (Some {| motionFrameNumber := 3; motionAmount := 0; motionDirection := 0 |}) ∧
  motionAmount {| motionFrameNumber := 3; motionAmount := 0; motionDirection := 0 |} = 0.
Proof.
  assert (H : targets (runtime (step published ProjectRunStart)) !! 0%nat
              = Some (Some {| motionFrameNumber := 3; motionAmount := 0;
                              motionDirection := 0 |})) by reflexivity.
  split; [exact H|].
  destruct (reset_spec published) as (_ & _ & _ & _ & _ & _ & _ & _ & _ & _ & Hz).
  exact (proj1 (Hz 0%nat _ H)).
Defined.

(** ** Where the code departs from the specification *)

(** C1, refuted.  On the demo session a second tick arrives while the
    cycle of the first is unresolved.  It is not dropped: the state changes,
    two cycles are in flight, and both run to the end, the first publishing
    "cat" and the second "dog". *)
Lemma overlapping_ticks_counterexample :
  let s1 := step taught (Tick (Some 0%nat)) in
  let s2 := step s1 (Tick (Some 1%nat)) in
  in_flight taught = 0%nat ∧
  in_flight s1 = 1%nat ∧
  s2 ≠ s1 ∧
  in_flight s2 = 2%nat ∧
  getResult (run s2 [Fire 0; Fire 0; Fire 0]) = JString "cat" ∧
  getResult (run s2 [Fire 0; Fire 0; Fire 0; Fire 0]) = JString "dog" ∧
  in_flight (run s2 [Fire 0; Fire 0; Fire 0; Fire 0]) = 0%nat.
Proof.
  cbn zeta. split_and!; try reflexivity.
  intros H. apply (f_equal in_flight) in H. vm_compute in H. discriminate.
Qed.

(** C2, refuted.  The demo session has examples in two classes, a published
    result and a cycle in flight.  After PROJECT_RUN_START all of them are
    still there. *)
Lemma project_start_counterexample :
  let s' := step published ProjectRunStart in
  exemplars s' 0 = [0%nat] ∧
  exemplars s' 1 = [1%nat] ∧
  Samples "cat" s' = JNumber 1 ∧
  getResult s' = JString "cat" ∧
  trainConfidences s' = Some [(0, 1%nat)] ∧
  in_flight s' = 1%nat.
Proof. cbn zeta. split_and!; reflexivity. Qed.

(** C3, refuted.  In [sampling] the video state is on and a sample is in
    flight, yet a tick is not a no-op: it starts a second cycle. *)
Lemma tick_in_flight_counterexample :
  globalVideoState sampling = ON ∧
  in_flight sampling = 1%nat ∧
  step sampling (Tick (Some 1%nat)) ≠ sampling ∧
  pending (step sampling (Tick (Some 1%nat))) = [SampleLoad 0%nat; SampleLoad 1%nat].
Proof.
  split_and!; try reflexivity.
  intros H. apply (f_equal in_flight) in H. vm_compute in H. discriminate.
Qed.

End Runs.

(** * Further properties of the extension *)

Section MoreProperties.

Context {Frame Embedding Confidences Number : Type}.
Context `{!Models Frame Embedding Confidences}.
Context `{!ConfidenceTable Confidences Number}.

Abbreviation State := (Scratch3Knn Frame Embedding Confidences).

(** ** The shapes a step can take *)

Lemma fire_raises (s : State) (i : nat) :
  (∃ b STRING img, pending s !! i = Some (TrainLoad b STRING img) ∧ mobilenet s = false) ∨
  (∃ img, pending s !! i = Some (SampleLoad img) ∧
          (mobilenet s = false ∨ predictClass (classifier s) (infer img) = None)) →
  ∃ err, handle (Fire i) s = (Throw err, set_pending (delete i) s, []).
Proof.
  intros [(b & STRING & img & Hi & Hm) | (img & Hi & Hwhy)];
    cbn [handle]; rewrite fire_unfold, Hi; cbn [run_task].
  - rewrite train_onload_unfold. cbn. rewrite Hm. eauto.
  - unfold gotResult_onload. cbv [mbind M_bind bind gets throw schedule modify].
    cbn -[predictClass infer].
    destruct (mobilenet s); [|eauto].
    destruct Hwhy as [Hf | Hp]; [discriminate|].
    cbn -[predictClass infer]. rewrite Hp. eauto.
Qed.

Lemma step_cases (s : State) (e : Event Frame) :
  (knn_state (step s e) = knn_state s ∧ (writes_runtime e = false → step s e = s)) ∨
  (∃ t, publishes s e = false ∧ writes_runtime e = false ∧
        is_MobilenetLoaded e = false ∧
        step s e = set_pending (fun l => l ++ [t]) s) ∨
  (∃ i, e = Fire i ∧ publishes s e = false ∧ is_Some (pending s !! i) ∧
        step s e = set_pending (delete i) s) ∨
  (∃ i img res, e = Fire i ∧ pending s !! i = Some (SampleLoad img) ∧
        step s e = set_pending (fun l => delete i l ++ [SamplePredict res]) s) ∨
  (∃ i b STRING img, e = Fire i ∧ pending s !! i = Some (TrainLoad b STRING img) ∧
        mobilenet s = true ∧
        step s e = set_trainTypes (fun tt => array_set tt (classIndexOf b) (JString STRING))
                     (set_classifier (addExample (infer img) (Z.of_nat (classIndexOf b)))
                        (set_pending (delete i) s))) ∨
  (∃ i res, e = Fire i ∧ pending s !! i = Some (SamplePredict res) ∧
        step s e = set_trainConfidences (Some (confidences res))
                     (set_trainResult
                        (js_or (array_get (trainTypes s) (classIndex res)) (JNumber 0))
                        (set_pending (delete i) s))) ∨
  (e = MobilenetLoaded ∧ step s e = set_mobilenet true s) ∨
  (∃ STRING, e = CallResetTrain STRING ∧
        0 ≤ indexOf (trainTypes s) (JString STRING) ∧
        exemplars s (indexOf (trainTypes s) (JString STRING)) ≠ [] ∧
        step s e = set_classifier
                     (knn_clearClass (indexOf (trainTypes s) (JString STRING))) s).
Proof.
  destruct e as [frame|i| | |state|t|b STRING frame|STRING].
  - unfold step. cbn [handle]. rewrite tick_unfold.
    repeat case_bool_decide; try (left; split; [reflexivity|done]).
    destruct frame as [img|]; [|left; split; [reflexivity|done]].
    right. left. exists (SampleLoad img). done.
  - destruct (pending s !! i) as [[b STRING img|img|res]|] eqn:Hi.
    + destruct (mobilenet s) eqn:Hm.
      * do 4 right. left. exists i, b, STRING, img. split_and!; try done.
        unfold step. rewrite (fire_TrainLoad s i b STRING img Hi Hm). reflexivity.
      * do 2 right. left. exists i. split_and!; [done|cbn; rewrite Hi; done|eauto|].
        destruct (fire_raises s i) as [err Herr]; [left; eauto 10|].
        unfold step. rewrite Herr. reflexivity.
    + destruct (mobilenet s) eqn:Hm;
        [destruct (predictClass (classifier s) (infer img)) as [res|] eqn:Hp|].
      * do 3 right. left. exists i, img, res. split_and!; try done.
        unfold step. rewrite (fire_SampleLoad s i img res Hi Hm Hp). reflexivity.
      * do 2 right. left. exists i. split_and!; [done|cbn; rewrite Hi; done|eauto|].
        destruct (fire_raises s i) as [err Herr]; [right; eauto 10|].
        unfold step. rewrite Herr. reflexivity.
      * do 2 right. left. exists i. split_and!; [done|cbn; rewrite Hi; done|eauto|].
        destruct (fire_raises s i) as [err Herr]; [right; eauto 10|].
        unfold step. rewrite Herr. reflexivity.
    + do 5 right. left. exists i, res. split_and!; try done.
      unfold step. rewrite (fire_SamplePredict s i res Hi). reflexivity.
    + left. unfold step. cbn [handle]. rewrite fire_unfold, Hi. done.
  - do 6 right. left. done.
  - left. split; [reflexivity|discriminate].
  - left. split; [apply videoToggle_knn_state|discriminate].
  - left. split; [reflexivity|discriminate].
  - unfold step. cbn [handle]. rewrite train_unfold.
    case_bool_decide; [left; split; [reflexivity|done]|].
    destruct frame as [img|]; [|left; split; [reflexivity|done]].
    right. left. exists (TrainLoad b STRING img). done.
  - unfold step. cbn [handle]. rewrite resetTrain_unfold. cbn zeta.
    destruct (truthy (count_at (getClassExampleCount s) _)) eqn:Ht; cbn [negb];
      [|left; split; [reflexivity|done]].
    destruct (Z.ltb_spec (indexOf (trainTypes s) (JString STRING)) 0) as [Hneg|Hpos];
      [left; split; [reflexivity|done]|].
    do 7 right. exists STRING. apply count_at_truthy in Ht. done.
Qed.

(** ** What a published result looks like, and when it changes *)

Lemma js_or_0_shape (v : JsValue) :
  is_label v ∨ v = JUndefined →
  match js_or v (JNumber 0) with
  | JUndefined => False
  | JString str => str ≠ EmptyString
  | JNumber n => n = 0
  end.
Proof.
  unfold js_or. destruct v as [|str|n]; cbn.
  - done.
  - intros _. case_bool_decide as Hs; cbn; done.
  - intros [[]|[=]].
Qed.

Lemma array_get_label_or_undefined (arr : list JsValue) (i : Z) :
  Forall is_label arr → is_label (array_get arr i) ∨ array_get arr i = JUndefined.
Proof.
  intros Hall. unfold array_get. destruct (i <? 0); [by right|].
  destruct (arr !! Z.to_nat i) as [v|] eqn:E; [|by right].
  left. cbn. eapply Forall_lookup_1; eassumption.
Qed.

Lemma array_set_length_in_range (arr : list JsValue) (i : nat) (v : JsValue) :
  (i < length arr)%nat → length (array_set arr i v) = length arr.
Proof.
  intros Hi. unfold array_set. rewrite decide_True by done. apply length_insert.
Qed.

Lemma six_labels_step (s : State) (e : Event Frame) :
  six_labels s → six_labels (step s e).
Proof.
  intros [Hlen Hall].
  destruct (step_cases s e)
    as [[Hk _]|[(t & _ & _ & _ & ->)|[(i & _ & _ & _ & ->)|[(i & img & res & _ & _ & ->)
       |[(i & b & STRING & img & _ & _ & _ & ->)|[(i & res & _ & _ & ->)
       |[[_ ->]|(STRING & _ & _ & _ & ->)]]]]]]]; try (split; assumption).
  - unfold six_labels. unfold knn_state in Hk.
    assert (Ht : trainTypes (step s e) = trainTypes s) by congruence.
    rewrite Ht. done.
  - assert (Hb : (classIndexOf b < length (trainTypes s))%nat)
      by (rewrite Hlen; destruct b; cbn; lia).
    split; cbn -[array_set].
    + rewrite array_set_length_in_range; done.
    + unfold array_set. rewrite decide_True by done.
      apply Forall_insert; done.
Qed.

Lemma six_labels_constructor (rt : Runtime) : six_labels (constructor rt : State).
Proof.
  pose proof (constructor_knn_state (Frame:=Frame) (Embedding:=Embedding)
                (Confidences:=Confidences) rt) as Hk.
  unfold knn_state in Hk. cbn in Hk.
  assert (Ht : trainTypes (constructor rt : State)
               = [JString "A"; JString "B"; JString "C";
                  JString "D"; JString "E"; JString "F"]) by congruence.
  unfold six_labels. rewrite Ht. split; [reflexivity|].
  repeat constructor.
Qed.

(** The label array has its six entries in every state the extension can
    reach, and every entry is a string: a training block renames its own
    slot in place and never grows the array. *)
Theorem labels_stay_six (rt : Runtime) (tr : list (Event Frame)) :
  let s : State := exec (constructor rt) tr in
  length (trainTypes s) = 6%nat ∧
  (∀ i : nat, (i < 6)%nat → ∃ label : string, trainTypes s !! i = Some (JString label)) ∧
  (∀ k : Z, array_get (trainTypes s) k = JUndefined ↔ k < 0 ∨ 6 ≤ k).
Proof.
  intros s.
  assert (Hsix : six_labels s).
  { subst s. generalize (six_labels_constructor rt).
    generalize (constructor rt : State). induction tr as [|e tr IH]; intros s0 H0; [exact H0|].
    cbn. apply IH, six_labels_step, H0. }
  destruct Hsix as [Hlen Hall].
  assert (Hentry : ∀ i : nat, (i < 6)%nat →
            ∃ label : string, trainTypes s !! i = Some (JString label)).
  { intros i Hi. destruct (lookup_lt_is_Some_2 (trainTypes s) i) as [v Hv]; [lia|].
    pose proof (Forall_lookup_1 _ _ _ _ Hall Hv) as Hlab.
    destruct v as [|label|n]; cbn in Hlab; try contradiction. eauto. }
  split_and!; [exact Hlen|exact Hentry|].
  intros k. split.
  - intros Hu. destruct (decide (k < 0 ∨ 6 ≤ k)) as [|Hin]; [done|].
    destruct (Hentry (Z.to_nat k)) as [label Hl]; [lia|].
    unfold array_get in Hu. destruct (Z.ltb_spec k 0); [lia|].
    rewrite Hl in Hu. discriminate.
  - intros Hout. apply array_get_out_of_range. lia.
Qed.

Lemma result_shape_step (s : State) (e : Event Frame) :
  Forall is_label (trainTypes s) → result_shape s → result_shape (step s e).
Proof.
  intros Hall Hshape.
  destruct (step_cases s e)
    as [[Hk _]|[(t & _ & _ & _ & ->)|[(i & _ & _ & _ & ->)|[(i & img & res & _ & _ & ->)
       |[(i & b & STRING & img & _ & _ & _ & ->)|[(i & res & _ & _ & ->)
       |[[_ ->]|(STRING & _ & _ & _ & ->)]]]]]]]; try exact Hshape.
  - unfold result_shape in *. unfold knn_state in Hk.
    assert (Hr : trainResult (step s e) = trainResult s) by congruence.
    assert (Hc : trainConfidences (step s e) = trainConfidences s) by congruence.
    rewrite Hr, Hc. exact Hshape.
  - unfold result_shape. cbn.
    pose proof (js_or_0_shape _ (array_get_label_or_undefined _ (classIndex res) Hall)) as Hj.
    destruct (js_or _ _); [contradiction| |]; split; eauto.
Qed.

Lemma reachable_shape (rt : Runtime) (tr : list (Event Frame)) :
  six_labels (exec (constructor rt) tr : State) ∧
  result_shape (exec (constructor rt) tr : State).
Proof.
  assert (H0 : six_labels (constructor rt : State) ∧ result_shape (constructor rt : State)).
  { split; [apply six_labels_constructor|].
    pose proof (constructor_knn_state (Frame:=Frame) (Embedding:=Embedding)
                  (Confidences:=Confidences) rt) as Hk.
    unfold knn_state in Hk. cbn in Hk. unfold result_shape.
    assert (Hr : trainResult (constructor rt : State) = JUndefined) by congruence.
    rewrite Hr. congruence. }
  revert H0. generalize (constructor rt : State).
  induction tr as [|e tr IH]; intros s0 H0; [exact H0|].
  cbn. apply IH. destruct H0 as [[Hlen Hall] Hshape].
  split; [apply six_labels_step; split; assumption|].
  apply result_shape_step; assumption.
Qed.

(** In every state the extension can reach, [getResult] reports
    [undefined], the number 0 or a non-empty string, never the empty string
    or another number; and a confidence table is held exactly when a result
    was published. *)
Theorem result_shape_reachable (rt : Runtime) (tr : list (Event Frame)) :
  let s : State := exec (constructor rt) tr in
  (getResult s = JUndefined ∨ getResult s = JNumber 0 ∨
   ∃ label : string, getResult s = JString label ∧ label ≠ EmptyString) ∧
  (getResult s = JUndefined ↔ trainConfidences s = None).
Proof.
  intros s.
  destruct (reachable_shape rt tr) as [_ Hshape].
  fold s in Hshape. unfold result_shape in Hshape. unfold getResult.
  destruct (trainResult s) as [|label|n].
  - split; [by left|]. done.
  - destruct Hshape as [Hne [c Hc]]. split; [right; right; eauto|].
    rewrite Hc. split; discriminate.
  - destruct Hshape as [-> [c Hc]]. split; [right; by left|].
    rewrite Hc. split; discriminate.
Qed.

Lemma result_kept_step (s : State) (e : Event Frame) :
  publishes s e = false →
  trainResult (step s e) = trainResult s ∧
  trainConfidences (step s e) = trainConfidences s.
Proof.
  intros Hp.
  destruct (step_cases s e)
    as [[Hk _]|[(t & _ & _ & _ & ->)|[(i & _ & _ & _ & ->)|[(i & img & res & _ & _ & ->)
       |[(i & b & STRING & img & _ & _ & _ & ->)|[(i & res & -> & Hi & _)
       |[[_ ->]|(STRING & _ & _ & _ & ->)]]]]]]]; try done.
  - unfold knn_state in Hk. split; congruence.
  - cbn in Hp. rewrite Hi in Hp. discriminate.
Qed.

Lemma runtime_kept (s : State) (e : Event Frame) :
  writes_runtime e = false → runtime (step s e) = runtime s.
Proof.
  intros Hw.
  destruct (step_cases s e)
    as [[_ Hs]|[(t & _ & _ & _ & ->)|[(i & _ & _ & _ & ->)|[(i & img & res & _ & _ & ->)
       |[(i & b & STRING & img & _ & _ & _ & ->)|[(i & res & _ & _ & ->)
       |[[_ ->]|(STRING & _ & _ & _ & ->)]]]]]]]; try reflexivity.
  rewrite Hs; done.
Qed.

(** Only the continuation that publishes a prediction writes the result:
    every other event, a reset of the predicted class included, leaves the
    published result and its confidences as they are. *)
Theorem result_kept (s : State) (e : Event Frame) :
  publishes s e = false →
  getResult (step s e) = getResult s ∧
  trainConfidences (step s e) = trainConfidences s.
Proof. apply result_kept_step. Qed.

(** Once a result is published, [getResult] never reports [undefined]
    again, whatever happens next. *)
Theorem result_never_reverts (s : State) (tr : list (Event Frame)) :
  getResult s ≠ JUndefined → getResult (exec s tr) ≠ JUndefined.
Proof.
  revert s. induction tr as [|e tr IH]; intros s Hs; [exact Hs|].
  cbn. apply IH.
  destruct (publishes s e) eqn:Hp.
  - destruct (step_cases s e)
      as [[Hk _]|[(t & Hno & _)|[(i & _ & Hno & _)|[(i & img & res & -> & Hi & _)
         |[(i & b & STRING & img & -> & Hi & _)|[(i & res & _ & _ & ->)
         |[[-> _]|(STRING & -> & _)]]]]]]]; try (cbn in Hp; congruence).
    + unfold knn_state in Hk. unfold getResult in *. congruence.
    + cbn in Hp. rewrite Hi in Hp. discriminate.
    + cbn in Hp. rewrite Hi in Hp. discriminate.
    + unfold getResult. cbn. unfold js_or.
      destruct (truthy (array_get (trainTypes s) (classIndex res))) eqn:Ht; [|discriminate].
      intros Hu. rewrite Hu in Ht. discriminate.
  - unfold getResult. rewrite (proj1 (result_kept_step s e Hp)). exact Hs.
Qed.

(** ** MobileNet and the runtime *)

(** [isloaded] answers true exactly from the moment MobileNet has
    arrived; nothing makes it false again. *)
Theorem isloaded_exec (s : State) (tr : list (Event Frame)) :
  isloaded (exec s tr) = isloaded s || existsb is_MobilenetLoaded tr.
Proof.
  revert s. induction tr as [|e tr IH]; intros s; [cbn; by rewrite orb_false_r|].
  change (exec s (e :: tr)) with (exec (step s e) tr).
  rewrite IH. cbn [existsb]. rewrite orb_assoc. f_equal. unfold isloaded.
  destruct (step_cases s e)
    as [[Hk _]|[(t & _ & _ & Hml & ->)|[(i & -> & _ & _ & ->)|[(i & img & res & -> & _ & ->)
       |[(i & b & STRING & img & -> & _ & _ & ->)|[(i & res & -> & _ & ->)
       |[[-> ->]|(STRING & -> & _ & _ & ->)]]]]]]]; cbn; try (by rewrite orb_false_r).
  - unfold knn_state in Hk. assert (Hm : mobilenet (step s e) = mobilenet s) by congruence.
    rewrite Hm. destruct e; cbn; try (by rewrite orb_false_r).
    unfold step in Hm. cbn in Hm. rewrite <- Hm. reflexivity.
  - rewrite Hml. by rewrite orb_false_r.
  - by rewrite orb_true_r.
Qed.

(** The video blocks and the project start write to the runtime only;
    ticks, callbacks, training and reset blocks never write to it. *)
Theorem runtime_or_extension (s : State) (e : Event Frame) :
  (writes_runtime e = true → knn_state (step s e) = knn_state s) ∧
  (writes_runtime e = false → runtime (step s e) = runtime s).
Proof.
  split.
  - destruct e; try discriminate; intros _.
    + reflexivity.
    + apply videoToggle_knn_state.
    + reflexivity.
  - apply runtime_kept.
Qed.

(** ** Blocks, callbacks and the camera *)

(** A training block that gets no frame from the video device: with the
    camera off it alerts as usual, with the camera on it raises (the frame
    is used unchecked); either way nothing is changed and no image load is
    left behind. *)
Theorem train_without_frame (b : TrainBlock) (STRING : string) (s : State) :
  (globalVideoState s = OFF →
     train b STRING None s = (Normal tt, s, [Alert msg_camera_off])) ∧
  (globalVideoState s ≠ OFF →
     ∃ err, train b STRING None s = (Throw err, s, [])) ∧
  step s (CallTrain b STRING None) = s.
Proof.
  unfold step. cbn [handle]. rewrite train_unfold.
  case_bool_decide as Hoff; split_and!; try done. eauto.
Qed.

(** A training whose image loads before MobileNet has arrived is lost:
    the callback raises, no example is added and no label changed, and the
    callback is gone, so that the arrival of MobileNet does not bring the
    training back. *)
Theorem training_lost_before_mobilenet (s : State) (i : nat) (b : TrainBlock)
    (STRING : string) (img : Frame) :
  pending s !! i = Some (TrainLoad b STRING img) →
  mobilenet s = false →
  (∃ err, handle (Fire i) s = (Throw err, set_pending (delete i) s, [])) ∧
  let s2 := exec s [Fire i; MobilenetLoaded] in
  isloaded s2 = true ∧
  (∀ k : Z, exemplars s2 k = exemplars s k) ∧
  trainTypes s2 = trainTypes s ∧
  pending s2 = delete i (pending s).
Proof.
  intros Hi Hm.
  destruct (fire_raises s i) as [err Herr]; [left; eauto 10|].
  split; [eauto|].
  cbn [exec foldl].
  assert (Hs1 : step s (Fire i) = set_pending (delete i) s)
    by (unfold step; rewrite Herr; reflexivity).
  rewrite Hs1. done.
Qed.

Lemma in_flight_delete (l : list (Task Frame Confidences)) (i : nat)
    (t : Task Frame Confidences) :
  l !! i = Some t →
  length (List.filter is_sampling l)
  = ((if is_sampling t then 1 else 0) + length (List.filter is_sampling (delete i l)))%nat.
Proof.
  revert i. induction l as [|x l IH]; intros [|i] Hi; cbn in *; try discriminate.
  - injection Hi as ->. destruct (is_sampling t); cbn; lia.
  - destruct (is_sampling x); cbn; rewrite (IH i Hi); destruct (is_sampling t);
      reflexivity.
Qed.

(** A sampling cycle whose image loads before MobileNet has arrived, or
    whose prediction is rejected, is dropped: the callback raises, the
    published result and confidences stay, and one cycle fewer is in
    flight. *)
Theorem cycle_dropped (s : State) (i : nat) (img : Frame) :
  pending s !! i = Some (SampleLoad img) →
  mobilenet s = false ∨ predictClass (classifier s) (infer img) = None →
  (∃ err, handle (Fire i) s = (Throw err, set_pending (delete i) s, [])) ∧
  getResult (step s (Fire i)) = getResult s ∧
  trainConfidences (step s (Fire i)) = trainConfidences s ∧
  S (in_flight (step s (Fire i))) = in_flight s.
Proof.
  intros Hi Hwhy.
  destruct (fire_raises s i) as [err Herr]; [right; eauto 10|].
  split; [eauto|]. unfold step. rewrite Herr. split_and!; try reflexivity.
  unfold in_flight. cbn. rewrite (in_flight_delete (pending s) i _ Hi). reflexivity.
Qed.

Lemma videoToggle_set_runtime (state : VideoState) (s : State) :
  ∃ f, step s (CallVideoToggle state) = set_runtime f s.
Proof.
  unfold step. cbn [handle].
  cbv [videoToggle mbind M_bind bind modify state_of].
  case_bool_decide; cbn; eexists (fun r => _); unfold set_runtime; cbn; reflexivity.
Qed.

Lemma fire_set_runtime (f : Runtime → Runtime) (s : State) (i : nat) :
  step (set_runtime f s) (Fire i) = set_runtime f (step s (Fire i)).
Proof.
  destruct (pending s !! i) as [[b STRING img|img|res]|] eqn:Hi.
  - destruct (mobilenet s) eqn:Hm.
    + unfold step.
      rewrite (fire_TrainLoad s i b STRING img Hi Hm).
      rewrite (fire_TrainLoad (set_runtime f s) i b STRING img Hi Hm). reflexivity.
    + destruct (fire_raises s i) as [err Herr]; [left; eauto 10|].
      destruct (fire_raises (set_runtime f s) i) as [err' Herr']; [left; eauto 10|].
      unfold step. rewrite Herr, Herr'. reflexivity.
  - destruct (mobilenet s) eqn:Hm;
      [destruct (predictClass (classifier s) (infer img)) as [res|] eqn:Hp|].
    + unfold step.
      rewrite (fire_SampleLoad s i img res Hi Hm Hp).
      rewrite (fire_SampleLoad (set_runtime f s) i img res Hi Hm Hp). reflexivity.
    + destruct (fire_raises s i) as [err Herr]; [right; eauto 10|].
      destruct (fire_raises (set_runtime f s) i) as [err' Herr']; [right; eauto 10|].
      unfold step. rewrite Herr, Herr'. reflexivity.
    + destruct (fire_raises s i) as [err Herr]; [right; eauto 10|].
      destruct (fire_raises (set_runtime f s) i) as [err' Herr']; [right; eauto 10|].
      unfold step. rewrite Herr, Herr'. reflexivity.
  - unfold step.
    rewrite (fire_SamplePredict s i res Hi).
    rewrite (fire_SamplePredict (set_runtime f s) i res Hi). reflexivity.
  - unfold step. cbn [handle]. rewrite !fire_unfold. cbn. rewrite Hi. reflexivity.
Qed.

(** The camera is looked at when a block or a tick runs, not when its
    callback fires: toggling the video between the two changes nothing to
    what the callback does to examples, labels, result and outstanding
    callbacks.  A training started with the camera on is completed after the
    camera was turned off, and so is a sampling cycle. *)
Theorem callbacks_ignore_video (s : State) (state : VideoState) (i : nat) :
  knn_state (exec s [CallVideoToggle state; Fire i]) = knn_state (step s (Fire i)) ∧
  runtime (exec s [CallVideoToggle state; Fire i]) = runtime (step s (CallVideoToggle state)).
Proof.
  cbn [exec foldl].
  destruct (videoToggle_set_runtime state s) as [f ->].
  rewrite fire_set_runtime. split; [reflexivity|].
  cbn. rewrite (runtime_kept s (Fire i)); done.
Qed.

(** A training block run with the camera on whose image loads after the
    camera was turned off still adds its example and renames its slot. *)
Theorem train_completes_camera_off (b : TrainBlock) (STRING : string) (img : Frame)
    (s : State) :
  globalVideoState s ≠ OFF → mobilenet s = true →
  let k := Z.of_nat (classIndexOf b) in
  let s2 := exec s [CallTrain b STRING (Some img); CallVideoToggle OFF;
                    Fire (length (pending s))] in
  exemplars s2 k = exemplars s k ++ [infer img] ∧
  array_get (trainTypes s2) k = JString STRING ∧
  videoEnabled (video (runtime s2)) = false.
Proof.
  intros Hon Hm k s2. subst s2. cbn [exec foldl].
  set (s1 := step s (CallTrain b STRING (Some img))).
  assert (Hs1 : s1 = set_pending (fun l => l ++ [TrainLoad b STRING img]) s).
  { subst s1. unfold step. cbn [handle]. rewrite train_unfold.
    rewrite bool_decide_eq_false_2 by done. reflexivity. }
  destruct (videoToggle_set_runtime OFF s1) as [f Hf].
  assert (Hvideo : videoEnabled (video (runtime (step s1 (CallVideoToggle OFF)))) = false)
    by reflexivity.
  rewrite Hf in Hvideo |- *. rewrite fire_set_runtime.
  assert (Hi : pending s1 !! length (pending s) = Some (TrainLoad b STRING img)).
  { rewrite Hs1. cbn. apply lookup_middle. }
  assert (Hm1 : mobilenet s1 = true) by (rewrite Hs1; exact Hm).
  set (s2 := step s1 (Fire (length (pending s)))).
  assert (Hs2 : s2 = set_trainTypes (fun tt => array_set tt (classIndexOf b) (JString STRING))
                       (set_classifier (addExample (infer img) k)
                          (set_pending (delete (length (pending s))) s1))).
  { subst s2. unfold step. rewrite (fire_TrainLoad s1 _ b STRING img Hi Hm1). reflexivity. }
  change (exemplars (set_runtime f s2) k) with (exemplars s2 k).
  change (trainTypes (set_runtime f s2)) with (trainTypes s2).
  assert (Hr : runtime (set_runtime f s2) = runtime (set_runtime f s1))
    by (rewrite Hs2; reflexivity).
  rewrite Hr. split_and!; [| |exact Hvideo].
  - rewrite Hs2. unfold exemplars at 1. cbn -[array_set].
    rewrite exemplars_addExample, decide_True by done. rewrite Hs1. reflexivity.
  - rewrite Hs2. cbn -[array_set]. rewrite array_get_set, decide_True by done.
    reflexivity.
Qed.

(** ** Labels, counts and the reset block together *)

Lemma array_set_lookup (arr : list JsValue) (i : nat) (v : JsValue) (j : nat) :
  array_set arr i v !! j
  = if decide (j = i) then Some v
    else if decide (j < length arr)%nat then arr !! j
    else if decide (j < i)%nat then Some JUndefined else None.
Proof.
  unfold array_set. destruct (decide (i < length arr)%nat) as [Hi|Hi].
  - case_decide as Hj.
    + subst j. apply list_lookup_insert_eq. done.
    + rewrite list_lookup_insert_ne by done.
      case_decide; [reflexivity|]. rewrite lookup_ge_None_2 by lia.
      case_decide; [lia|reflexivity].
  - case_decide as Hj.
    + subst j. rewrite lookup_app_r by lia.
      rewrite lookup_app_r by (rewrite length_replicate; lia).
      rewrite length_replicate.
      replace (i - length arr - (i - length arr))%nat with 0%nat by lia. reflexivity.
    + case_decide as Hlt; [apply lookup_app_l; done|].
      rewrite lookup_app_r by lia. case_decide as Hji.
      * rewrite lookup_app_l by (rewrite length_replicate; lia).
        apply lookup_replicate_2. lia.
      * rewrite lookup_app_r by (rewrite length_replicate; lia).
        rewrite length_replicate. apply lookup_ge_None_2. cbn. lia.
Qed.

Lemma step_train_onload (s : State) (i : nat) (b : TrainBlock) (STRING : string)
    (img : Frame) :
  pending s !! i = Some (TrainLoad b STRING img) →
  mobilenet s = true →
  step s (Fire i)
  = set_trainTypes (fun tt => array_set tt (classIndexOf b) (JString STRING))
      (set_classifier (addExample (infer img) (Z.of_nat (classIndexOf b)))
         (set_pending (delete i) s)).
Proof.
  intros Hi Hm. unfold step. rewrite (fire_TrainLoad s i b STRING img Hi Hm). reflexivity.
Qed.

Lemma step_resetTrain (s : State) (STRING : string) :
  0 ≤ indexOf (trainTypes s) (JString STRING) →
  exemplars s (indexOf (trainTypes s) (JString STRING)) ≠ [] →
  handle (CallResetTrain STRING) s
  = (Normal tt,
     set_classifier (knn_clearClass (indexOf (trainTypes s) (JString STRING))) s,
     [Say (counts_text
             (set_classifier (knn_clearClass (indexOf (trainTypes s) (JString STRING))) s))]).
Proof.
  intros Hpos Hne. cbn [handle]. rewrite resetTrain_unfold. cbn zeta.
  apply count_at_truthy in Hne. rewrite Hne. cbn [negb].
  apply Z.ltb_ge in Hpos. rewrite Hpos. reflexivity.
Qed.

(** After a reset block went through, [Samples] reports 0 for its label,
    and a second reset of the same label is refused with the "no training
    data" alert and changes nothing. *)
Theorem reset_then_Samples (s : State) (STRING : string) :
  0 ≤ indexOf (trainTypes s) (JString STRING) →
  exemplars s (indexOf (trainTypes s) (JString STRING)) ≠ [] →
  let s1 := step s (CallResetTrain STRING) in
  Samples STRING s1 = JNumber 0 ∧
  handle (CallResetTrain STRING) s1 = (Normal tt, s1, [Alert msg_no_samples]).
Proof.
  intros Hpos Hne s1.
  assert (Hs1 : s1 = set_classifier
                       (knn_clearClass (indexOf (trainTypes s) (JString STRING))) s).
  { subst s1. unfold step. rewrite (step_resetTrain s STRING Hpos Hne). reflexivity. }
  assert (Hempty : exemplars s1 (indexOf (trainTypes s1) (JString STRING)) = []).
  { rewrite Hs1. cbn [trainTypes set_classifier]. rewrite exemplars_clearClass.
    rewrite decide_True by done. reflexivity. }
  split.
  - rewrite Samples_exemplars, Hempty. reflexivity.
  - cbn [handle]. rewrite resetTrain_unfold. cbn zeta.
    destruct (truthy (count_at (getClassExampleCount s1) _)) eqn:Ht; [|reflexivity].
    apply count_at_truthy in Ht. contradiction.
Qed.

(** In every state the extension can reach, a reset block is refused
    exactly for the labels of which [Samples] reports 0; for every other
    label it goes through: the class the label resolves to is cleared and
    the text said is the text of the counts of the state so reached. *)
Theorem Samples_zero_iff_refused (rt : Runtime) (tr : list (Event Frame))
    (STRING : string) :
  let s : State := exec (constructor rt) tr in
  let s' := set_classifier (knn_clearClass (indexOf (trainTypes s) (JString STRING))) s in
  (Samples STRING s = JNumber 0 ↔
   ∃ msg, handle (CallResetTrain STRING) s = (Normal tt, s, [Alert msg])) ∧
  (Samples STRING s ≠ JNumber 0 ↔
   handle (CallResetTrain STRING) s = (Normal tt, s', [Say (counts_text s')])) ∧
  (Samples STRING s ≠ JNumber 0 ↔
   ∃ text, effects_of (handle (CallResetTrain STRING) s) = [Say text]).
Proof.
  intros s s'.
  pose proof (known_classes_reachable rt tr) as Hk. fold s in Hk.
  rewrite Samples_exemplars.
  set (index := indexOf (trainTypes s) (JString STRING)) in *.
  destruct (exemplars s index) as [|x l] eqn:He.
  - assert (Hr : handle (CallResetTrain STRING) s = (Normal tt, s, [Alert msg_no_samples])).
    { cbn [handle]. rewrite resetTrain_unfold. cbn zeta. fold index.
      destruct (truthy (count_at (getClassExampleCount s) index)) eqn:Ht; [|reflexivity].
      apply count_at_truthy in Ht. congruence. }
    rewrite Hr. cbn. refine (conj _ (conj _ _)).
    + split; [eauto|reflexivity].
    + split; [intros Hc; exfalso; apply Hc; reflexivity|].
      intros Heq. discriminate Heq.
    + split; [intros Hc; exfalso; apply Hc; reflexivity|].
      intros [text Heq]. discriminate Heq.
  - assert (Hpos : 0 ≤ index).
    { unfold exemplars in He. destruct (classifier s !! index) as [l'|] eqn:E; [|discriminate].
      destruct (Hk index l' E) as [Hrange _]. lia. }
    assert (Hr : handle (CallResetTrain STRING) s = (Normal tt, s', [Say (counts_text s')])).
    { apply (step_resetTrain s STRING Hpos). fold index. rewrite He. done. }
    rewrite Hr. cbn -[counts_text]. refine (conj _ (conj _ _)).
    + split; [intros Heq; discriminate Heq|].
      intros [msg Heq]. discriminate Heq.
    + split; [reflexivity|]. intros _ Heq. discriminate Heq.
    + split; [eauto|]. intros _ Heq. discriminate Heq.
Qed.

(** A training that completes under a label which no lower slot carries
    is counted under that label: [Samples] reports one more than the slot
    held. *)
Theorem train_then_Samples (s : State) (i : nat) (b : TrainBlock) (STRING : string)
    (img : Frame) :
  pending s !! i = Some (TrainLoad b STRING img) →
  mobilenet s = true →
  (∀ j : nat, (j < classIndexOf b)%nat → trainTypes s !! j ≠ Some (JString STRING)) →
  Samples STRING (step s (Fire i))
  = JNumber (Z.of_nat (S (length (exemplars s (Z.of_nat (classIndexOf b)))))).
Proof.
  intros Hi Hm Hlow. rewrite (step_train_onload s i b STRING img Hi Hm).
  rewrite Samples_exemplars. cbn [trainTypes set_trainTypes set_classifier set_pending].
  rewrite (indexOf_first_match _ _ (classIndexOf b)).
  - unfold exemplars at 1. cbn -[array_set].
    rewrite exemplars_addExample, decide_True by done.
    rewrite length_app. cbn. do 2 f_equal. lia.
  - split.
    + rewrite array_set_lookup, decide_True by done. reflexivity.
    + intros j Hj. rewrite array_set_lookup, decide_False by lia.
      case_decide; [apply Hlow; done|]. rewrite decide_True by done. discriminate.
Qed.

(** Labels are resolved to the lowest slot that carries them.  When a
    training block is given a label that a lower slot already carries, the
    example goes to the block's own slot but [Samples] keeps reporting the
    count of the lower slot, and a reset of that label clears the lower
    slot. *)
Theorem shadowed_label (s : State) (i : nat) (b : TrainBlock) (STRING : string)
    (img : Frame) (j : nat) :
  pending s !! i = Some (TrainLoad b STRING img) →
  mobilenet s = true →
  first_match (trainTypes s) (JString STRING) j →
  (j < classIndexOf b)%nat →
  let s2 := step s (Fire i) in
  exemplars s2 (Z.of_nat (classIndexOf b))
  = exemplars s (Z.of_nat (classIndexOf b)) ++ [infer img] ∧
  indexOf (trainTypes s2) (JString STRING) = Z.of_nat j ∧
  Samples STRING s2 = JNumber (Z.of_nat (length (exemplars s (Z.of_nat j)))) ∧
  (exemplars s (Z.of_nat j) ≠ [] →
     exemplars (step s2 (CallResetTrain STRING)) (Z.of_nat (classIndexOf b))
     = exemplars s (Z.of_nat (classIndexOf b)) ++ [infer img] ∧
     exemplars (step s2 (CallResetTrain STRING)) (Z.of_nat j) = []).
Proof.
  intros Hi Hm [Hj Hfirst] Hlt s2.
  assert (Hs2 : s2 = set_trainTypes (fun tt => array_set tt (classIndexOf b) (JString STRING))
                       (set_classifier (addExample (infer img) (Z.of_nat (classIndexOf b)))
                          (set_pending (delete i) s)))
    by apply (step_train_onload s i b STRING img Hi Hm).
  assert (Hjlen : (j < length (trainTypes s))%nat) by (eapply lookup_lt_Some; eassumption).
  assert (Hidx : indexOf (trainTypes s2) (JString STRING) = Z.of_nat j).
  { apply indexOf_first_match. rewrite Hs2. cbn -[array_set]. split.
    - rewrite array_set_lookup, decide_False, decide_True by lia. exact Hj.
    - intros j' Hj'. rewrite array_set_lookup, decide_False, decide_True by lia.
      apply Hfirst. exact Hj'. }
  assert (Hown : exemplars s2 (Z.of_nat (classIndexOf b))
                 = exemplars s (Z.of_nat (classIndexOf b)) ++ [infer img]).
  { rewrite Hs2. unfold exemplars at 1. cbn -[array_set].
    rewrite exemplars_addExample, decide_True by done. reflexivity. }
  assert (Hother : exemplars s2 (Z.of_nat j) = exemplars s (Z.of_nat j)).
  { rewrite Hs2. unfold exemplars at 1. cbn -[array_set].
    rewrite exemplars_addExample, decide_False by lia. reflexivity. }
  split_and!; [exact Hown|exact Hidx| |].
  - rewrite Samples_exemplars, Hidx, Hother. reflexivity.
  - intros Hne.
    assert (Hs3 : step s2 (CallResetTrain STRING)
                  = set_classifier (knn_clearClass (Z.of_nat j)) s2).
    { unfold step.
      rewrite (step_resetTrain s2 STRING);
        [|rewrite Hidx; lia|rewrite Hidx, Hother; exact Hne].
      rewrite Hidx. reflexivity. }
    rewrite Hs3, !exemplars_clearClass.
    rewrite decide_False by lia. rewrite decide_True by done. done.
Qed.

(** ** Cycles in flight *)

Lemma pending_fire (s : State) (i : nat) :
  pending (step s (Fire i))
  = match pending s !! i with
    | None => pending s
    | Some (SampleLoad img) =>
        if mobilenet s then
          match predictClass (classifier s) (infer img) with
          | Some res => delete i (pending s) ++ [SamplePredict res]
          | None => delete i (pending s)
          end
        else delete i (pending s)
    | Some _ => delete i (pending s)
    end.
Proof.
  destruct (pending s !! i) as [[b STRING img|img|res]|] eqn:Hi.
  - destruct (mobilenet s) eqn:Hm.
    + rewrite (step_train_onload s i b STRING img Hi Hm). reflexivity.
    + destruct (fire_raises s i) as [err Herr]; [left; eauto 10|].
      unfold step. rewrite Herr. reflexivity.
  - destruct (mobilenet s) eqn:Hm;
      [destruct (predictClass (classifier s) (infer img)) as [res|] eqn:Hp|].
    + unfold step. rewrite (fire_SampleLoad s i img res Hi Hm Hp). reflexivity.
    + destruct (fire_raises s i) as [err Herr]; [right; eauto 10|].
      unfold step. rewrite Herr. reflexivity.
    + destruct (fire_raises s i) as [err Herr]; [right; eauto 10|].
      unfold step. rewrite Herr. reflexivity.
  - unfold step. rewrite (fire_SamplePredict s i res Hi). reflexivity.
  - unfold step. cbn [handle]. rewrite fire_unfold, Hi. reflexivity.
Qed.

(** Only a tick starts a sampling cycle.  Every other event leaves the
    number of cycles in flight as it is or takes one away: a block never
    starts or cancels a cycle, an image load keeps its cycle in flight, and
    a cycle ends when it publishes or is dropped. *)
Theorem cycles_start_at_ticks (s : State) (e : Event Frame) :
  (∀ frame, e ≠ Tick frame) →
  (in_flight (step s e) ≤ in_flight s)%nat ∧
  (in_flight s ≤ S (in_flight (step s e)))%nat ∧
  ((∀ i, e ≠ Fire i) → in_flight (step s e) = in_flight s) ∧
  (publishes s e = true → S (in_flight (step s e)) = in_flight s).
Proof.
  intros Htick.
  assert (Hsame : ∀ s' : State, pending s' = pending s → in_flight s' = in_flight s)
    by (intros s' Hp; unfold in_flight; rewrite Hp; reflexivity).
  assert (Hblock : (∀ i, e ≠ Fire i) → in_flight (step s e) = in_flight s).
  { intros Hfire. destruct e as [frame|i| | |state|t|b STRING frame|STRING].
    - exfalso. exact (Htick frame eq_refl).
    - exfalso. exact (Hfire i eq_refl).
    - apply Hsame. reflexivity.
    - apply Hsame. reflexivity.
    - apply Hsame. destruct (videoToggle_set_runtime state s) as [f ->]. reflexivity.
    - apply Hsame. reflexivity.
    - unfold step. cbn [handle]. rewrite train_unfold.
      case_bool_decide; [reflexivity|]. destruct frame; [|reflexivity].
      unfold in_flight. cbn. rewrite List.filter_app, length_app. cbn. lia.
    - apply Hsame. unfold step. cbn [handle]. rewrite resetTrain_unfold. cbn zeta.
      destruct (negb _); [reflexivity|]. destruct (_ <? 0); reflexivity. }
  assert (Hcase : (∃ i, e = Fire i) ∨ ¬ (∃ i, e = Fire i)).
  { destruct e; try (right; intros [? [=]]; fail). left. eauto. }
  destruct Hcase as [[i ->]|Hno].
  - assert (Hn : in_flight (step s (Fire i))
                = length (List.filter is_sampling (pending (step s (Fire i)))))
      by reflexivity.
    rewrite pending_fire in Hn. cbn [publishes].
    destruct (pending s !! i) as [t|] eqn:Hi.
    + pose proof (in_flight_delete (pending s) i t Hi) as Hd. fold (in_flight s) in Hd.
      destruct t as [b STRING img|img|res]; cbn in Hd.
      * split_and!; [lia|lia|exact Hblock|done].
      * destruct (mobilenet s); [destruct (predictClass _ _)|];
          rewrite ?List.filter_app, ?length_app in Hn; cbn in Hn;
          (split_and!; [lia|lia|exact Hblock|done]).
      * split_and!; [lia|lia|exact Hblock|intros _; lia].
    + fold (in_flight s) in Hn. split_and!; [lia|lia|exact Hblock|done].
  - assert (Hfire : ∀ i, e ≠ Fire i) by (intros i Hi; apply Hno; eauto).
    rewrite (Hblock Hfire). split_and!; try lia; try done.
    intros Hpub. destruct e; cbn in Hpub; try discriminate. exfalso. eapply Hfire. reflexivity.
Qed.

(** ** The confidence reporter *)

(** [getConfidence] reports 0 for a label that no slot carries and, for
    every label, as long as no result was published: in a state the
    extension can reach, whenever [getResult] is still [undefined]. *)
Theorem getConfidence_zero (rt : Runtime) (tr : list (Event Frame)) (STRING : string) :
  let s : State := exec (constructor rt) tr in
  (JString STRING ∉ trainTypes s → getConfidence STRING s = ReportedZero) ∧
  (getResult s = JUndefined → getConfidence STRING s = ReportedZero).
Proof.
  intros s. unfold getConfidence. cbn zeta. split.
  - intros Hn. rewrite (indexOf_not_elem _ _ Hn). reflexivity.
  - intros Hu. destruct (reachable_shape rt tr) as [_ Hshape]. fold s in Hshape.
    unfold result_shape, getResult in *. rewrite Hu in Hshape. rewrite Hshape.
    destruct (_ =? -1); reflexivity.
Qed.

(** When a prediction is published, the confidence of a label is read in
    the table of that very prediction, at the lowest slot carrying the
    label; a missing or falsy entry is reported as 0. *)
Theorem getConfidence_after_publish (s : State) (i : nat)
    (res : PredictResult Confidences) (STRING : string) (j : nat) :
  pending s !! i = Some (SamplePredict res) →
  first_match (trainTypes s) (JString STRING) j →
  getConfidence STRING (step s (Fire i))
  = match confidence_at (confidences res) (Z.of_nat j) with
    | Some c => if number_truthy c then ReportedNumber c else ReportedZero
    | None => ReportedZero
    end.
Proof.
  intros Hi Hf. unfold step. rewrite (fire_SamplePredict s i res Hi).
  unfold getConfidence. cbn -[confidence_at number_truthy indexOf Z.eqb].
  rewrite (indexOf_first_match _ _ _ Hf).
  destruct (Z.eqb_spec (Z.of_nat j) (-1)) as [Hneg|_]; [lia|]. reflexivity.
Qed.

(** Labels are looked up when a block reads, the result when a cycle
    publishes.  After a training block has renamed the only slot that
    carried the published label, [getResult] and [whenGetResult] still
    answer with the old label, while no slot carries it any more:
    [getConfidence] reports 0 for it, and so does [Samples] although the
    slot has kept its examples. *)
Theorem renamed_label (s : State) (i : nat) (b : TrainBlock) (old new : string)
    (img : Frame) :
  pending s !! i = Some (TrainLoad b new img) →
  mobilenet s = true →
  new ≠ old →
  (∀ j : nat, trainTypes s !! j = Some (JString old) → j = classIndexOf b) →
  let s2 := step s (Fire i) in
  (JString old ∉ trainTypes s2) ∧
  getConfidence old s2 = ReportedZero ∧
  (known_classes s → Samples old s2 = JNumber 0) ∧
  exemplars s2 (Z.of_nat (classIndexOf b))
  = exemplars s (Z.of_nat (classIndexOf b)) ++ [infer img] ∧
  (getResult s = JString old →
     getResult s2 = JString old ∧ whenGetResult old s2 = true).
Proof.
  intros Hi Hm Hne Honly s2.
  assert (Hs2 : s2 = set_trainTypes (fun tt => array_set tt (classIndexOf b) (JString new))
                       (set_classifier (addExample (infer img) (Z.of_nat (classIndexOf b)))
                          (set_pending (delete i) s)))
    by apply (step_train_onload s i b new img Hi Hm).
  assert (Hgone : JString old ∉ trainTypes s2).
  { rewrite Hs2. cbn -[array_set]. intros Hin.
    apply list_elem_of_lookup_1 in Hin. destruct Hin as [j Hj].
    rewrite array_set_lookup in Hj. case_decide as Hjb; [congruence|].
    case_decide; [apply Hjb, Honly, Hj|]. case_decide; discriminate. }
  assert (Hidx : indexOf (trainTypes s2) (JString old) = -1)
    by apply indexOf_not_elem, Hgone.
  split_and!.
  - exact Hgone.
  - unfold getConfidence. cbn zeta. rewrite Hidx. reflexivity.
  - intros Hk. rewrite Samples_exemplars, Hidx.
    assert (Hk2 : known_classes s2).
    { subst s2. apply known_classes_step, Hk. }
    unfold exemplars. destruct (classifier s2 !! (-1)) as [l|] eqn:E; [|reflexivity].
    destruct (Hk2 _ l E) as [Hrange _]. lia.
  - rewrite Hs2. unfold exemplars at 1. cbn -[array_set].
    rewrite exemplars_addExample, decide_True by done. reflexivity.
  - intros Hres. unfold getResult in *.
    assert (Hr2 : trainResult s2 = JString old) by (rewrite Hs2; exact Hres).
    split; [exact Hr2|]. unfold whenGetResult. rewrite Hr2. unfold strict_eq.
    rewrite bool_decide_eq_false_2 by discriminate.
    apply bool_decide_eq_true_2. reflexivity.
Qed.

(** ** The video blocks *)

(** [videoToggle] and the state read back.  With a stage target the state
    given is the state read; without one the state read is always "on".
    The video device is enabled unless the state given is "off", and its
    mirroring is set only then: turning the video off leaves the mirroring
    as it was. *)
Theorem videoToggle_read_back (s : State) (state : VideoState) :
  let s' := step s (CallVideoToggle state) in
  (is_Some (stage (runtime s)) → globalVideoState s' = state) ∧
  (stage (runtime s) = None → globalVideoState s' = ON) ∧
  videoEnabled (video (runtime s')) = negb (bool_decide (state = OFF)) ∧
  mirror (video (runtime s'))
  = (if bool_decide (state = OFF) then mirror (video (runtime s))
     else bool_decide (state = ON)) ∧
  previewGhost (video (runtime s')) = previewGhost (video (runtime s)) ∧
  globalVideoTransparency s' = globalVideoTransparency s ∧
  targets (runtime s') = targets (runtime s).
Proof.
  intros s'. subst s'.
  destruct s as [[[st|] tg vd] c m tt r tc p]; destruct state; cbn;
    split_and!; try done; intros [? ?]; discriminate.
Qed.

(** Without a stage target the video state cannot be switched off for the
    extension: after "turn video off" the video device is disabled, yet
    [globalVideoState] still reads "on".  So a training block never shows
    the camera alert: it leaves its image load when the device delivers a
    frame and raises when it delivers none.  And a tick is not held back:
    it runs [gotResult], which starts a cycle when something was taught and
    a frame is delivered, and does nothing without a frame. *)
Theorem camera_off_without_stage (s : State) :
  stage (runtime s) = None →
  let s' := step s (CallVideoToggle OFF) in
  videoEnabled (video (runtime s')) = false ∧
  globalVideoState s' = ON ∧
  (∀ (b : TrainBlock) (STRING : string) (img : Frame),
     train b STRING (Some img) s'
     = (Normal tt, set_pending (fun l => l ++ [TrainLoad b STRING img]) s', [])) ∧
  (∀ (b : TrainBlock) (STRING : string),
     ∃ err, train b STRING None s' = (Throw err, s', [])) ∧
  (∀ (b : TrainBlock) (STRING : string) (frame : option Frame),
     existsb is_alert (effects_of (train b STRING frame s')) = false) ∧
  (∀ frame : option Frame, handle (Tick frame) s' = gotResult frame s') ∧
  (classifier s ≠ ∅ → ∀ img : Frame,
     handle (Tick (Some img)) s'
     = (Normal tt, set_pending (fun l => l ++ [SampleLoad img]) s', [])) ∧
  handle (Tick None) s' = (Normal tt, s', []).
Proof.
  intros Hst s'.
  assert (Hvs : globalVideoState s' = ON).
  { subst s'. destruct s as [[st tg vd] c m tt r tc p]. cbn in Hst. subst st.
    reflexivity. }
  assert (Hc : classifier s' = classifier s) by reflexivity.
  refine (conj _ (conj Hvs (conj _ (conj _ (conj _ (conj _ (conj _ _))))))).
  - reflexivity.
  - intros b STRING img. rewrite train_unfold, Hvs. reflexivity.
  - intros b STRING. rewrite train_unfold, Hvs. cbn. eauto.
  - intros b STRING frame. rewrite train_unfold, Hvs. cbn.
    destruct frame; reflexivity.
  - intros frame. cbn [handle]. rewrite tick_unfold, gotResult_unfold, Hvs. reflexivity.
  - intros Ht img. apply tick_starts; [exact Hvs|rewrite Hc; exact Ht].
  - cbn [handle]. rewrite tick_unfold, Hvs.
    repeat case_bool_decide; reflexivity.
Qed.

(** [setVideoTransparency] and the value read back: the preview ghost of
    the video device takes the value given; the stored transparency is the
    value given when there is a stage target and stays 50 when there is
    none.  The video state is not touched. *)
Theorem setVideoTransparency_read_back (s : State) (transparency : Z) :
  let s' := step s (CallSetVideoTransparency transparency) in
  previewGhost (video (runtime s')) = transparency ∧
  (is_Some (stage (runtime s)) → globalVideoTransparency s' = transparency) ∧
  (stage (runtime s) = None → globalVideoTransparency s' = 50) ∧
  globalVideoState s' = globalVideoState s ∧
  videoEnabled (video (runtime s')) = videoEnabled (video (runtime s)) ∧
  mirror (video (runtime s')) = mirror (video (runtime s)).
Proof.
  intros s'. subst s'.
  destruct s as [[[st|] tg vd] c m tt r tc p]; cbn;
    split_and!; try done; intros [? ?]; discriminate.
Qed.

(** A new extension leaves the stage and the targets of its runtime as it
    found them and configures the video device from the stored settings:
    the preview ghost is the stored transparency (50 without a stage), the
    device is enabled unless the stored state is "off" (always without a
    stage), and no example, result or callback exists yet. *)
Theorem constructor_configures (rt : Runtime) :
  let s : State := constructor rt in
  stage (runtime s) = stage rt ∧
  targets (runtime s) = targets rt ∧
  previewGhost (video (runtime s))
  = match stage rt with Some st => videoTransparency st | None => 50 end ∧
  videoEnabled (video (runtime s))
  = match stage rt with Some st => negb (bool_decide (videoState st = OFF)) | None => true end ∧
  isloaded s = false ∧ pending s = [] ∧ classifier s = ∅ ∧ getResult s = JUndefined.
Proof.
  intros s. subst s.
  destruct rt as [[[vs vt]|] tg vd]; [destruct vs|]; cbn; split_and!; reflexivity.
Qed.

(** The video blocks and the project start are idempotent: running one of
    them twice in a row leaves the extension as running it once. *)
Theorem runtime_blocks_idempotent (s : State) (e : Event Frame) :
  writes_runtime e = true → step (step s e) e = step s e.
Proof.
  destruct e as [| | | |state|t| |]; try discriminate; intros _.
  - unfold step. cbn. unfold set_runtime. cbn. f_equal. f_equal.
    rewrite <- list_fmap_compose. apply list_fmap_ext. intros _ [m|] _; reflexivity.
  - destruct s as [[[st|] tg vd] c m tt r tc p]; destruct state; reflexivity.
  - destruct s as [[[st|] tg vd] c m tt r tc p]; reflexivity.
Qed.

(** ** The menus and the motion state *)

Lemma pretty_N_go_nonempty (x : N) (str : string) :
  str ≠ EmptyString → pretty_N_go x str ≠ EmptyString.
Proof.
  revert str. induction (N.lt_wf_0 x) as [x _ IH]; intros str Hne.
  destruct (decide (0 < x)%N) as [Hx|Hx].
  - rewrite pretty_N_go_step by done. apply IH; [|discriminate].
    apply N.div_lt; lia.
  - replace x with 0%N by lia. rewrite pretty_N_go_0. exact Hne.
Qed.

Lemma pretty_nat_nonempty (n : nat) : pretty n ≠ EmptyString.
Proof.
  unfold pretty, pretty_nat, pretty, pretty_N. case_decide; [discriminate|].
  destruct (decide (0 < N.of_nat n)%N) as [Hx|Hx]; [|lia].
  rewrite pretty_N_go_step by done. apply pretty_N_go_nonempty. discriminate.
Qed.

(** [_buildMenu] gives one item per entry, in order, with the entry's name
    for text.  The value of an item is the entry's own value when that is
    truthy and the decimal of the entry's position, counted from 1,
    otherwise; it is never falsy, and two entries without a value of their
    own never get the same one. *)
Theorem buildMenu_values (info : list MenuInfo) :
  length (_buildMenu info) = length info ∧
  (∀ (i : nat) (entry : MenuInfo), info !! i = Some entry →
     ∃ item, _buildMenu info !! i = Some item ∧
       menu_text item = info_name entry ∧
       truthy (menu_value item) = true ∧
       (truthy (info_value entry) = true → menu_value item = info_value entry) ∧
       (truthy (info_value entry) = false →
          menu_value item = JString (pretty (S i)))) ∧
  (∀ (i j : nat) (a b : MenuInfo), info !! i = Some a → info !! j = Some b →
     truthy (info_value a) = false → truthy (info_value b) = false → i ≠ j →
     menu_value <$> _buildMenu info !! i ≠ menu_value <$> _buildMenu info !! j).
Proof.
  unfold _buildMenu. split_and!.
  - apply length_imap.
  - intros i entry Hi. rewrite list_lookup_imap, Hi. cbn.
    eexists. split; [reflexivity|]. cbn. unfold js_or.
    replace (i + 1)%nat with (S i) by lia.
    destruct (truthy (info_value entry)) eqn:Ht; split_and!; try done.
    cbn. apply negb_true_iff, bool_decide_eq_false_2, pretty_nat_nonempty.
  - intros i j a b Hi Hj Ha Hb Hij.
    rewrite !list_lookup_imap, Hi, Hj. cbn. unfold js_or. rewrite Ha, Hb.
    intros [= Heq]. apply (inj pretty) in Heq. lia.
Qed.

(** [_getMotionState] always leaves the state it returns stored on the
    target; a state already there is returned as it is, a missing one is
    created as the default; asking again returns the same state and stores
    nothing new. *)
Remark getMotionState_stores (target : option MotionState) :
  let '(motionState, target') := _getMotionState target in
  target' = Some motionState ∧
  (∀ m, target = Some m → motionState = m ∧ target' = target) ∧
  (target = None → motionState = DEFAULT_MOTION_STATE) ∧
  _getMotionState target' = (motionState, target') ∧
  reset_target target' = Some {| motionFrameNumber := motionFrameNumber motionState;
                                 motionAmount := 0; motionDirection := 0 |}.
Proof.
  destruct target as [m|]; cbn; split_and!; try done.
  intros m' [= ->]. done.
Qed.

End MoreProperties.

(** * Further concrete runs *)

Section MoreRuns.

Import Demo.

Lemma labels_stay_six_witness :
  ∃ label : string, trainTypes taught !! 1%nat = Some (JString label).
Proof.
  unfold taught, run, started.
  destruct (labels_stay_six (a_runtime ON) lesson) as (_ & Hentry & _).
  apply (Hentry 1%nat). lia.
Defined.

(** The published "cat" survives the reset of both classes. *)
Lemma result_kept_witness :
  publishes published (CallResetTrain "cat") = false ∧
  getResult (step published (CallResetTrain "cat")) = JString "cat".
Proof.
  assert (H : publishes published (CallResetTrain "cat") = false) by reflexivity.
  split; [exact H|].
  destruct (result_kept published (CallResetTrain "cat") H) as [Hr _].
  rewrite Hr. vm_compute. reflexivity.
Defined.

Lemma result_never_reverts_witness :
  getResult published ≠ JUndefined ∧
  getResult (run published [CallResetTrain "cat"; CallResetTrain "dog"]) ≠ JUndefined.
Proof.
  assert (H : getResult published ≠ JUndefined) by (vm_compute; discriminate).
  split; [exact H|].
  apply (result_never_reverts published
           [CallResetTrain "cat"; CallResetTrain "dog"] H).
Defined.

Lemma runtime_or_extension_witness :
  knn_state (step published (CallVideoToggle OFF)) = knn_state published ∧
  runtime (step published (CallResetTrain "cat")) = runtime published.
Proof.
  split.
  - apply (proj1 (runtime_or_extension published (CallVideoToggle OFF))). reflexivity.
  - apply (proj2 (runtime_or_extension published (CallResetTrain "cat"))). reflexivity.
Defined.

Lemma train_without_frame_witness :
  (globalVideoState camera_off = OFF ∧
   train TrainA "cat" None camera_off = (Normal tt, camera_off, [Alert msg_camera_off])) ∧
  (globalVideoState taught ≠ OFF ∧
   ∃ err, train TrainA "cat" None taught = (Throw err, taught, [])).
Proof.
  split.
  - assert (H : globalVideoState camera_off = OFF) by reflexivity.
    split; [exact H|].
    apply (proj1 (train_without_frame TrainA "cat" camera_off)). exact H.
  - assert (H : globalVideoState taught ≠ OFF) by (vm_compute; discriminate).
    split; [exact H|].
    destruct (train_without_frame TrainA "cat" taught) as (_ & Hr & _).
    apply Hr. exact H.
Defined.

Lemma training_lost_before_mobilenet_witness :
  pending training_early !! 0%nat = Some (TrainLoad TrainA "cat" 0%nat) ∧
  mobilenet training_early = false ∧
  exemplars (run training_early [Fire 0; MobilenetLoaded]) 0 = [] ∧
  pending (run training_early [Fire 0; MobilenetLoaded]) = [].
Proof.
  assert (Hi : pending training_early !! 0%nat = Some (TrainLoad TrainA "cat" 0%nat))
    by reflexivity.
  assert (Hm : mobilenet training_early = false) by reflexivity.
  destruct (training_lost_before_mobilenet training_early 0 TrainA "cat" 0%nat Hi Hm)
    as (_ & _ & He & _ & Hp).
  split_and!; [exact Hi|exact Hm| |].
  - unfold run. rewrite He. reflexivity.
  - unfold run. rewrite Hp. reflexivity.
Defined.

Lemma cycle_dropped_witness :
  pending emptied !! 0%nat = Some (SampleLoad 0%nat) ∧
  predictClass (classifier emptied) (infer 0%nat) = None ∧
  in_flight emptied = 1%nat ∧
  in_flight (step emptied (Fire 0)) = 0%nat.
Proof.
  assert (Hi : pending emptied !! 0%nat = Some (SampleLoad 0%nat)) by reflexivity.
  assert (Hp : predictClass (classifier emptied) (infer 0%nat) = None) by reflexivity.
  assert (Hf : in_flight emptied = 1%nat) by reflexivity.
  destruct (cycle_dropped emptied 0 0%nat Hi (or_intror Hp)) as (_ & _ & _ & Hn).
  split_and!; [exact Hi|exact Hp|exact Hf|].
  rewrite Hf in Hn. lia.
Defined.

Lemma train_completes_camera_off_witness :
  globalVideoState taught ≠ OFF ∧ mobilenet taught = true ∧
  exemplars (run taught [CallTrain TrainA "bird" (Some 2%nat); CallVideoToggle OFF; Fire 0]) 0
  = [0%nat; 2%nat].
Proof.
  assert (H : globalVideoState taught ≠ OFF) by (vm_compute; discriminate).
  assert (Hm : mobilenet taught = true) by reflexivity.
  split_and!; [exact H|exact Hm|].
  destruct (train_completes_camera_off TrainA "bird" 2%nat taught H Hm) as (He & _).
  exact He.
Defined.

Lemma reset_then_Samples_witness :
  0 ≤ indexOf (trainTypes taught) (JString "cat") ∧
  exemplars taught (indexOf (trainTypes taught) (JString "cat")) ≠ [] ∧
  Samples "cat" (step taught (CallResetTrain "cat")) = JNumber 0.
Proof.
  assert (H0 : 0 ≤ indexOf (trainTypes taught) (JString "cat")) by (vm_compute; discriminate).
  assert (H1 : exemplars taught (indexOf (trainTypes taught) (JString "cat")) ≠ [])
    by (vm_compute; discriminate).
  split_and!; [exact H0|exact H1|].
  apply (proj1 (reset_then_Samples taught "cat" H0 H1)).
Defined.

Lemma Samples_zero_iff_refused_witness :
  (Samples "zebra" taught = JNumber 0 ∧
   ∃ msg, handle (CallResetTrain "zebra") taught = (Normal tt, taught, [Alert msg])) ∧
  (Samples "cat" taught ≠ JNumber 0 ∧
   effects_of (handle (CallResetTrain "cat") taught)
   = [Say (counts_text (set_classifier (knn_clearClass 0) taught))]).
Proof.
  unfold taught, run, started.
  destruct (Samples_zero_iff_refused (a_runtime ON) lesson "zebra") as [[Hz _] _].
  destruct (Samples_zero_iff_refused (a_runtime ON) lesson "cat") as (_ & [Hc _] & _).
  assert (H : Samples "zebra" (exec (constructor (a_runtime ON)) lesson) = JNumber 0)
    by (vm_compute; reflexivity).
  assert (H' : Samples "cat" (exec (constructor (a_runtime ON)) lesson) ≠ JNumber 0)
    by (vm_compute; discriminate).
  split; [split; [exact H|apply Hz; exact H]|].
  split; [exact H'|]. rewrite (Hc H'). reflexivity.
Defined.

Lemma train_then_Samples_witness :
  pending training !! 0%nat = Some (TrainLoad TrainC "bird" 2%nat) ∧
  mobilenet training = true ∧
  Samples "bird" (step training (Fire 0)) = JNumber 1.
Proof.
  assert (Hi : pending training !! 0%nat = Some (TrainLoad TrainC "bird" 2%nat))
    by reflexivity.
  assert (Hm : mobilenet training = true) by reflexivity.
  split_and!; [exact Hi|exact Hm|].
  rewrite (train_then_Samples training 0 TrainC "bird" 2%nat Hi Hm).
  - reflexivity.
  - intros [|[|j]] Hj; [vm_compute; discriminate|vm_compute; discriminate|cbn in Hj; lia].
Defined.

Lemma shadowed_label_witness :
  pending shadowing !! 0%nat = Some (TrainLoad TrainB "cat" 3%nat) ∧
  first_match (trainTypes shadowing) (JString "cat") 0 ∧
  exemplars (step shadowing (Fire 0)) 1 = [1%nat; 3%nat] ∧
  Samples "cat" (step shadowing (Fire 0)) = JNumber 1.
Proof.
  assert (Hi : pending shadowing !! 0%nat = Some (TrainLoad TrainB "cat" 3%nat))
    by reflexivity.
  assert (Hm : mobilenet shadowing = true) by reflexivity.
  assert (Hf : first_match (trainTypes shadowing) (JString "cat") 0).
  { split; [reflexivity|]. intros j Hj. lia. }
  assert (Hlt : (0 < classIndexOf TrainB)%nat) by (cbn; lia).
  destruct (shadowed_label shadowing 0 TrainB "cat" 3%nat 0 Hi Hm Hf Hlt)
    as (He & _ & Hs & _).
  split_and!; [exact Hi|exact Hf|exact He|exact Hs].
Defined.

Lemma getConfidence_zero_witness :
  (JString "zebra" ∉ trainTypes taught) ∧
  getConfidence "zebra" taught = (ReportedZero : Reported nat) ∧
  getResult taught = JUndefined ∧
  getConfidence "cat" taught = (ReportedZero : Reported nat).
Proof.
  unfold taught, run, started.
  pose proof (getConfidence_zero (Number:=nat) (a_runtime ON) lesson "zebra") as [Hz _].
  pose proof (getConfidence_zero (Number:=nat) (a_runtime ON) lesson "cat") as [_ Hu].
  assert (Hn : JString "zebra" ∉ trainTypes (exec (constructor (a_runtime ON)) lesson)).
  { apply (bool_decide_unpack _). vm_compute. exact I. }
  assert (Hr : getResult (exec (constructor (a_runtime ON)) lesson) = JUndefined)
    by (vm_compute; reflexivity).
  split_and!; [exact Hn|exact (Hz Hn)|exact Hr|exact (Hu Hr)].
Defined.

Lemma getConfidence_after_publish_witness :
  pending predicting !! 0%nat
  = Some (SamplePredict {| classIndex := 0; confidences := [(0, 1%nat)] |}) ∧
  first_match (trainTypes predicting) (JString "cat") 0 ∧
  getConfidence "cat" (step predicting (Fire 0)) = ReportedNumber 1%nat ∧
  getConfidence "dog" (step predicting (Fire 0)) = ReportedZero.
Proof.
  assert (Hi : pending predicting !! 0%nat
               = Some (SamplePredict {| classIndex := 0; confidences := [(0, 1%nat)] |}))
    by reflexivity.
  assert (Hcat : first_match (trainTypes predicting) (JString "cat") 0).
  { split; [reflexivity|]. intros j Hj. lia. }
  assert (Hdog : first_match (trainTypes predicting) (JString "dog") 1).
  { split; [reflexivity|]. intros [|j] Hj; [vm_compute; discriminate|lia]. }
  split_and!; [exact Hi|exact Hcat| |].
  - rewrite (getConfidence_after_publish (Number:=nat) predicting 0 _ "cat" 0 Hi Hcat).
    reflexivity.
  - rewrite (getConfidence_after_publish (Number:=nat) predicting 0 _ "dog" 1 Hi Hdog).
    reflexivity.
Defined.

Lemma renamed_label_witness :
  pending renaming !! 1%nat = Some (TrainLoad TrainA "bird" 2%nat) ∧
  getResult renaming = JString "cat" ∧
  getResult (step renaming (Fire 1)) = JString "cat" ∧
  whenGetResult "cat" (step renaming (Fire 1)) = true ∧
  getConfidence "cat" (step renaming (Fire 1)) = (ReportedZero : Reported nat) ∧
  exemplars (step renaming (Fire 1)) 0 = [0%nat; 2%nat].
Proof.
  assert (Hi : pending renaming !! 1%nat = Some (TrainLoad TrainA "bird" 2%nat))
    by reflexivity.
  assert (Hm : mobilenet renaming = true) by reflexivity.
  assert (Hne : "bird" ≠ "cat") by discriminate.
  assert (Hres : getResult renaming = JString "cat") by reflexivity.
  assert (Honly : ∀ j : nat, trainTypes renaming !! j = Some (JString "cat") →
                    j = classIndexOf TrainA).
  { intros [|[|[|[|[|[|j]]]]]] Hj; vm_compute in Hj; try discriminate. reflexivity. }
  destruct (renamed_label (Number:=nat) renaming 1 TrainA "cat" "bird" 2%nat
              Hi Hm Hne Honly) as (_ & Hc & _ & He & Hr).
  destruct (Hr Hres) as [Hg Hw].
  split_and!; [exact Hi|exact Hres|exact Hg|exact Hw|exact Hc|exact He].
Defined.

Lemma videoToggle_read_back_witness :
  (is_Some (stage (runtime taught)) ∧
   globalVideoState (step taught (CallVideoToggle ON_FLIPPED)) = ON_FLIPPED) ∧
  (stage (runtime unstaged) = None ∧
   globalVideoState (step unstaged (CallVideoToggle OFF)) = ON).
Proof.
  split.
  - assert (H : is_Some (stage (runtime taught))) by (vm_compute; eauto).
    split; [exact H|].
    apply (proj1 (videoToggle_read_back taught ON_FLIPPED)). exact H.
  - assert (H : stage (runtime unstaged) = None) by reflexivity.
    split; [exact H|].
    destruct (videoToggle_read_back unstaged OFF) as (_ & Hn & _). apply Hn. exact H.
Defined.

Lemma camera_off_without_stage_witness :
  stage (runtime unstaged) = None ∧
  videoEnabled (video (runtime (step unstaged (CallVideoToggle OFF)))) = false ∧
  globalVideoState (step unstaged (CallVideoToggle OFF)) = ON ∧
  effects_of (train TrainA "cat" (Some 0%nat) (step unstaged (CallVideoToggle OFF))) = [] ∧
  handle (Tick None) (step unstaged (CallVideoToggle OFF))
  = (Normal tt, step unstaged (CallVideoToggle OFF), []).
Proof.
  assert (H : stage (runtime unstaged) = None) by reflexivity.
  destruct (camera_off_without_stage unstaged H) as (Hv & Hon & Ht & _ & _ & _ & _ & Hnone).
  split_and!; [exact H|exact Hv|exact Hon| |exact Hnone].
  exact (f_equal effects_of (Ht TrainA "cat" 0%nat)).
Defined.

Lemma setVideoTransparency_read_back_witness :
  (is_Some (stage (runtime taught)) ∧
   globalVideoTransparency (step taught (CallSetVideoTransparency 20)) = 20) ∧
  (stage (runtime unstaged) = None ∧
   globalVideoTransparency (step unstaged (CallSetVideoTransparency 20)) = 50).
Proof.
  split.
  - assert (H : is_Some (stage (runtime taught))) by (vm_compute; eauto).
    split; [exact H|].
    destruct (setVideoTransparency_read_back taught 20) as (_ & Hs & _). apply Hs. exact H.
  - assert (H : stage (runtime unstaged) = None) by reflexivity.
    split; [exact H|].
    destruct (setVideoTransparency_read_back unstaged 20) as (_ & _ & Hn & _).
    apply Hn. exact H.
Defined.

Lemma runtime_blocks_idempotent_witness :
  step (step published ProjectRunStart) ProjectRunStart = step published ProjectRunStart.
Proof.
  apply (runtime_blocks_idempotent published ProjectRunStart). reflexivity.
Defined.

Lemma buildMenu_values_witness :
  some_info !! 2%nat = Some {| info_name := "third"; info_value := JUndefined |} ∧
  ∃ item, _buildMenu some_info !! 2%nat = Some item ∧
          menu_text item = "third" ∧ menu_value item = JString "3".
Proof.
  assert (H : some_info !! 2%nat = Some {| info_name := "third"; info_value := JUndefined |})
    by reflexivity.
  split; [exact H|].
  destruct (buildMenu_values some_info) as (_ & Hitem & _).
  destruct (Hitem 2%nat _ H) as (item & Hl & Ht & _ & _ & Hd).
  exists item. split_and!; [exact Hl|exact Ht|].
  rewrite Hd by reflexivity. reflexivity.
Defined.

Lemma cycles_start_at_ticks_witness :
  (∀ frame, (CallResetTrain "cat" : Event Frame) ≠ Tick frame) ∧
  in_flight (step sampling (CallResetTrain "cat")) = 1%nat.
Proof.
  assert (H : ∀ frame, (CallResetTrain "cat" : Event Frame) ≠ Tick frame)
    by (intros frame; discriminate).
  split; [exact H|].
  destruct (cycles_start_at_ticks sampling (CallResetTrain "cat") H) as (_ & _ & Hb & _).
  rewrite Hb; [reflexivity|]. intros i. discriminate.
Defined.

(** C5, refuted.  The camera is on and the video device delivers frame 0,
    but MobileNet has not loaded: [trainA] returns without an alert, and
    when its image loads the callback raises.  No example is added, slot 0
    keeps the label "A", and the training is gone.  With MobileNet loaded
    and the camera on, a block that gets no frame raises and changes
    nothing either. *)
Lemma train_enabled_counterexample :
  (globalVideoState started = ON ∧
   isloaded started = false ∧
   trainA "cat" (Some 0%nat) started = (Normal tt, training_early, []) ∧
   pending training_early = [TrainLoad TrainA "cat" 0%nat] ∧
   completion_of (handle (Fire 0) training_early)
   = Throw "TypeError: this.mobilenet is undefined" ∧
   exemplars (step training_early (Fire 0)) 0 = [] ∧
   array_get (trainTypes (step training_early (Fire 0))) 0 = JString "A" ∧
   Samples "cat" (step training_early (Fire 0)) = JNumber 0 ∧
   pending (step training_early (Fire 0)) = []) ∧
  (globalVideoState taught = ON ∧
   isloaded taught = true ∧
   trainA "bird" None taught = (Throw "TypeError: getFrame(...) is null", taught, [])).
Proof. split; split_and!; vm_compute; reflexivity. Qed.

End MoreRuns.
